(** * fritzbox_smart_home: normalizer, sorter and the two munin emitters

    A shallow embedding of [fritzbox_smart_home.py].  The router's answer is
    a decoded JSON document, so the input is a Python object built from
    [None], booleans, integers, floats, strings, lists and dicts; the
    operations used on it ([x[k]], [k in x], [for y in x], [==], [float],
    [int], truth value) are written out with the exceptions they raise. *)

From Stdlib Require Import ZArith String Ascii List Permutation Sorted.
From Stdlib Require Import Floats.SpecFloat.
From stdpp Require Import base option list gmap strings fin_maps.

Local Open Scope Z_scope.
Set Default Proof Using "Type".

(** ** Python objects *)

(** A Python [float] is an IEEE 754 binary64 number: [spec_float] at
    precision 53 and maximal exponent 1024. *)
Definition prec : Z := 53.
Definition emax : Z := 1024.

#[warnings="-register-all"] Inductive value : Type :=
| VNone
| VBool (b : bool)
| VInt (n : Z)
| VFloat (f : spec_float)
| VStr (s : string)
| VList (l : list value)
| VDict (d : list (string * value)).

(** A dict is kept as the list of its items; a key bound twice denotes its
    first binding. *)
Fixpoint dict_get (k : string) (d : list (string * value)) : option value :=
  match d with
  | [] => None
  | (k', v) :: d' => if String.eqb k k' then Some v else dict_get k d'
  end.

Inductive exn : Type := KeyError | TypeError | ValueError | OverflowError.

Inductive result (A : Type) : Type :=
| Ok (a : A)
| Raise (e : exn).
Arguments Ok {A} a.
Arguments Raise {A} e.

#[global] Instance result_ret : MRet result := λ A a, Ok a.
#[global] Instance result_bind : MBind result := λ A B f m,
  match m with
  | Ok a => f a
  | Raise e => Raise e
  end.

(** [obj[k]] for a string [k]. *)
Definition getitem (obj : value) (k : string) : result value :=
  match obj with
  | VDict d => match dict_get k d with
               | Some v => Ok v
               | None => Raise KeyError
               end
  | _ => Raise TypeError
  end.

(** [obj == s] for a string literal [s]. *)
Definition eq_str (obj : value) (s : string) : bool :=
  match obj with
  | VStr s' => String.eqb s' s
  | _ => false
  end.

Fixpoint is_substring (k s : string) : bool :=
  String.prefix k s ||
  match s with
  | EmptyString => false
  | String _ s' => is_substring k s'
  end.

(** [k in obj] for a string [k]: key test on a dict, element test on a list,
    substring test on a string. *)
Definition contains (k : string) (obj : value) : result bool :=
  match obj with
  | VDict d => Ok (bool_decide (is_Some (dict_get k d)))
  | VList l => Ok (existsb (λ x, eq_str x k) l)
  | VStr s => Ok (is_substring k s)
  | _ => Raise TypeError
  end.

(** [for x in obj]: the elements of a list, the keys of a dict, the
    characters of a string (taken bytewise here; each of them is a string
    of length one for the code below either way). *)
Definition iter (obj : value) : result (list value) :=
  match obj with
  | VList l => Ok l
  | VDict d => Ok (VStr <$> remove_dups (d.*1))
  | VStr s => Ok ((λ c, VStr (String c EmptyString)) <$> list_ascii_of_string s)
  | _ => Raise TypeError
  end.

(** Truth value of an object, as [and] and [if] take it. *)
Definition truthy (obj : value) : bool :=
  match obj with
  | VNone => false
  | VBool b => b
  | VInt n => negb (n =? 0)
  | VFloat (S754_zero _) => false
  | VFloat _ => true
  | VStr s => negb (String.eqb s "")
  | VList l => match l with [] => false | _ => true end
  | VDict d => match d with [] => false | _ => true end
  end.

(** *** Numbers *)

(** [float(n)] for an integer: round to nearest even. *)
Definition float_of_Z (n : Z) : spec_float := binary_normalize prec emax n 0 false.

(** [int(f)] for a finite float: truncation towards zero. *)
Definition trunc (f : spec_float) : result Z :=
  match f with
  | S754_zero _ => Ok 0
  | S754_infinity _ => Raise OverflowError
  | S754_nan => Raise ValueError
  | S754_finite s m e =>
      let a := if 0 <=? e then Z.pos m * 2 ^ e else Z.pos m / 2 ^ (- e) in
      Ok (if s then - a else a)
  end.

Fixpoint str_repeat (n : nat) (s : string) : string :=
  match n with
  | O => ""
  | S n' => s +:+ str_repeat n' s
  end.

Section Normalizer.

(** Python's parsers of number literals, [float(s)] and [int(s)] on a
    string; [None] stands for the [ValueError] they raise.  The code never
    inspects how they parse, so they are kept abstract. *)
Variable float_of_str : string → option spec_float.
Variable int_of_str : string → option Z.

Definition py_float (obj : value) : result spec_float :=
  match obj with
  | VFloat f => Ok f
  | VInt n => match float_of_Z n with
              | S754_infinity _ => Raise OverflowError
              | f => Ok f
              end
  | VBool b => Ok (float_of_Z (if b then 1 else 0))
  | VStr s => match float_of_str s with
              | Some f => Ok f
              | None => Raise ValueError
              end
  | _ => Raise TypeError
  end.

Definition py_int (obj : value) : result Z :=
  match obj with
  | VInt n => Ok n
  | VBool b => Ok (if b then 1 else 0)
  | VFloat f => trunc f
  | VStr s => match int_of_str s with
              | Some n => Ok n
              | None => Raise ValueError
              end
  | _ => Raise TypeError
  end.

(** [obj * n] for an integer literal [n]. *)
Definition py_mul (obj : value) (n : Z) : result value :=
  match obj with
  | VFloat f => Ok (VFloat (SFmul prec emax f (float_of_Z n)))
  | VInt a => Ok (VInt (a * n))
  | VBool b => Ok (VInt ((if b then 1 else 0) * n))
  | VStr s => Ok (VStr (str_repeat (Z.to_nat n) s))
  | VList l => Ok (VList (mjoin (replicate (Z.to_nat n) l)))
  | _ => Raise TypeError
  end.

(** *** Dict keys

    [simplifiedDevices] is keyed by the device id, whatever JSON gave for it.
    Python dict keys are compared with [==] (after hashing): [1], [1.0] and
    [True] are one key, a NaN is equal to no other key, and lists and dicts
    are not hashable.  [key_of] maps a hashable object to a normal form on
    which [==] is plain equality; numbers are normalized to an odd mantissa
    times a power of two. *)
Inductive key : Type :=
| KNone
| KStr (s : string)
| KNum (m e : Z)
| KInf (neg : bool)
| KNaN.

#[global] Instance key_eq_dec : EqDecision key.
Proof. solve_decision. Defined.

Fixpoint strip_twos (p : positive) (e : Z) : positive * Z :=
  match p with
  | xO p' => strip_twos p' (e + 1)
  | _ => (p, e)
  end.

Definition dyadic (neg : bool) (m : Z) (e : Z) : key :=
  match m with
  | Z0 => KNum 0 0
  | Zpos p | Zneg p =>
      let '(q, e') := strip_twos p e in
      KNum (if neg then Zneg q else Zpos q) e'
  end.

Definition key_of (obj : value) : option key :=
  match obj with
  | VNone => Some KNone
  | VBool b => Some (dyadic false (if b then 1 else 0) 0)
  | VInt n => Some (dyadic (n <? 0) n 0)
  | VFloat (S754_zero _) => Some (KNum 0 0)
  | VFloat (S754_infinity s) => Some (KInf s)
  | VFloat S754_nan => Some KNaN
  | VFloat (S754_finite s m e) => Some (dyadic s (Zpos m) e)
  | VStr s => Some (KStr s)
  | VList _ | VDict _ => None
  end.

Definition key_eqb (k1 k2 : key) : bool :=
  match k1 with
  | KNaN => false
  | _ => bool_decide (k1 = k2)
  end.

(** The dict [simplifiedDevices]: its items in insertion order, each with
    the key object it was first stored under and that key's normal form. *)
Abbreviation devmap := (list (value * key * gmap string value)).

(** [m[k] = d]: overwrite the value of an equal key where it stands, or
    append a new item. *)
Fixpoint devmap_set (m : devmap) (k : value) (kk : key) (d : gmap string value) : devmap :=
  match m with
  | [] => [(k, kk, d)]
  | (k', kk', d') :: m' =>
      if key_eqb kk' kk then (k', kk', d) :: m'
      else (k', kk', d') :: devmap_set m' k kk d
  end.

Definition setitem (m : devmap) (k : value) (d : gmap string value) : result devmap :=
  match key_of k with
  | Some kk => Ok (devmap_set m k kk d)
  | None => Raise TypeError
  end.

(** [m.values()] *)
Definition values (m : devmap) : list (gmap string value) := m.*2.

(** ** The normalizer: [getSimplifiedDevices] *)

(** [for x in l: s = body(x, s)], stopping at the first exception. *)
Fixpoint for_each {A S : Type} (body : A → S → result S) (l : list A) (s : S) : result S :=
  match l with
  | [] => Ok s
  | x :: l' => s' ← body x s; for_each body l' s'
  end.

(** [if k in obj: body(obj[k])] *)
Definition if_in (k : string) (obj : value)
    (body : value → gmap string value → result (gmap string value))
    (simpleDev : gmap string value) : result (gmap string value) :=
  b ← contains k obj;
  if b : bool then v ← getitem obj k; body v simpleDev else Ok simpleDev.

(** [if k in obj: simpleDev[field] = obj[k]] *)
Definition copy (k : string) (obj : value) (field : string)
    (simpleDev : gmap string value) : result (gmap string value) :=
  if_in k obj (λ v simpleDev, Ok (<[field := v]> simpleDev)) simpleDev.

(** [simpleDev[field] = obj[k] if k in obj else None] *)
Definition copy_or_none (k : string) (obj : value) (field : string)
    (simpleDev : gmap string value) : result (gmap string value) :=
  b ← contains k obj;
  if b : bool then v ← getitem obj k; Ok (<[field := v]> simpleDev)
  else Ok (<[field := VNone]> simpleDev).

(** [1 if b else 0] *)
Definition flag (b : bool) : value := VInt (if b then 1 else 0).

(** The state reporting of Fritz!OS 7.51/7.56, lines 87-94.  The second
    flag is stored under the key ["holidyActive"], as the source spells it. *)
Definition new_state (skill : value) (simpleDev : gmap string value) : result (gmap string value) :=
  if_in "state" skill (λ state simpleDev,
    if_in "current" state (λ current simpleDev,
      Ok (<["windowOpen" := flag (eq_str current "WINDOW_OPEN")]>
         (<["holidyActive" := flag (eq_str current "HOLIDAY")]>
         (<["summerActive" := flag (eq_str current "SUMMER")]> simpleDev))))
      simpleDev)
    simpleDev.

(** The state reporting of Fritz!OS 7.29/7.31, lines 98-107. *)
Definition old_state (skill : value) (simpleDev : gmap string value) : result (gmap string value) :=
  simpleDev ← copy "summerActive" skill "summerActive" simpleDev;
  simpleDev ← copy "holidayActive" skill "holidayActive" simpleDev;
  if_in "temperatureDropDetection" skill (λ tdd simpleDev,
    copy "isWindowOpen" tdd "windowOpen" simpleDev) simpleDev.

Definition usedTempSensor (skill : value) (simpleDev : gmap string value) : result (gmap string value) :=
  if_in "usedTempSensor" skill (λ sensor simpleDev,
    refSkills ← getitem sensor "skills";
    refSkills ← iter refSkills;
    for_each (λ refSkill simpleDev,
      copy "currentInCelsius" refSkill "refTemperatureInDegC" simpleDev) refSkills simpleDev)
    simpleDev.

Definition SmartHomeThermostat (skill : value) (simpleDev : gmap string value) : result (gmap string value) :=
  simpleDev ← copy "mode" skill "mode" simpleDev;
  simpleDev ← new_state skill simpleDev;
  simpleDev ← old_state skill simpleDev;
  simpleDev ← copy_or_none "targetTemp" skill "targetTemperatureInDegC" simpleDev;
  usedTempSensor skill simpleDev.

Definition SmartHomeMultimeter (skill : value) (simpleDev : gmap string value) : result (gmap string value) :=
  simpleDev ← copy "electricCurrentInAmpere" skill "currentInAmp" simpleDev;
  simpleDev ← copy "powerConsumptionInWatt" skill "powerInWatt" simpleDev;
  simpleDev ← if_in "powerPerHour" skill (λ powerPerHour simpleDev,
    f ← py_float powerPerHour;
    Ok (<["energyInKWH" := VFloat (SFdiv prec emax f (float_of_Z 1000))]> simpleDev)) simpleDev;
  copy "voltageInVolt" skill "voltageInVolt" simpleDev.

Definition SmartHomeSwitch (skill : value) (simpleDev : gmap string value) : result (gmap string value) :=
  if_in "state" skill (λ state simpleDev,
    Ok (<["powerSwitchOn" := VBool (eq_str state "ON")]> simpleDev)) simpleDev.

(** The body of [for skill in skills], lines 76-165. *)
Definition apply_skill (skill : value) (simpleDev : gmap string value) : result (gmap string value) :=
  skillType ← getitem skill "type";
  if eq_str skillType "SmartHomeThermostat" then
    SmartHomeThermostat skill simpleDev
  else if eq_str skillType "SmartHomeTemperatureSensor" then
    copy_or_none "currentInCelsius" skill "currentTemperatureInDegC" simpleDev
  else if eq_str skillType "SmartHomeHumiditySensor" then
    copy_or_none "currentInPercent" skill "currentHumidityInPct" simpleDev
  else if eq_str skillType "SmartHomeBattery" then
    copy_or_none "chargeLevelInPercent" skill "batteryChargeLevelInPct" simpleDev
  else if eq_str skillType "SmartHomeMultimeter" then
    SmartHomeMultimeter skill simpleDev
  else if eq_str skillType "SmartHomeSocket" then
    Ok simpleDev
  else if eq_str skillType "SmartHomeSwitch" then
    SmartHomeSwitch skill simpleDev
  else Ok simpleDev.

(** The body of [for unit in units], lines 67-166. *)
Definition apply_unit (unit : value) (simpleDev : gmap string value) : result (gmap string value) :=
  unitDisplayName ← getitem unit "displayName";
  skills ← getitem unit "skills";
  unitType ← getitem unit "type";
  unitID ← getitem unit "id";
  skills ← iter skills;
  for_each apply_skill skills simpleDev.

(** The dict literal of lines 56-61. *)
Definition base_fields (devID devDisplayName connected model identifier : value) : gmap string value :=
  <["identifier" := identifier]>
  (<["model" := model]>
  (<["present" := VBool (eq_str connected "CONNECTED")]>
  (<["displayName" := devDisplayName]>
  (<["id" := devID]> ∅)))).

(** The body of [for device in devices] up to the store into
    [simplifiedDevices], lines 49-167: the device id and its record. *)
Definition simplify_device (device : value) : result (value * gmap string value) :=
  devDisplayName ← getitem device "displayName";
  category ← getitem device "category";
  deviceType ← getitem device "type";
  units ← getitem device "units";
  connected ← getitem device "masterConnectionState";
  devID ← getitem device "id";
  model ← getitem device "model";
  identifier ← getitem device "actorIdentificationNumber";
  units ← iter units;
  simpleDev ← for_each apply_unit units
               (base_fields devID devDisplayName connected model identifier);
  Ok (devID, simpleDev).

Definition store_device (device : value) (simplifiedDevices : devmap) : result devmap :=
  '(devID, simpleDev) ← simplify_device device;
  setitem simplifiedDevices devID simpleDev.

(** [getSimplifiedDevices(debug=False)], with [data] the object that
    [FritzboxInterface().postPageWithLogin] returned. *)
Definition getSimplifiedDevices (data : value) : result devmap :=
  inner ← getitem data "data";
  devices ← getitem inner "devices";
  devices ← iter devices;
  for_each store_device devices [].

(** ** The sorter: [getDevices] *)

(** [a < b] on two sort keys.  Display names are strings, ordered by code
    point (bytewise on UTF-8 text); a string against anything else raises
    [TypeError] in Python.  Python also orders numbers and lists among
    themselves; display names of those kinds are not modelled and are
    rejected in the same way. *)
Definition key_lt (a b : value) : result bool :=
  match a, b with
  | VStr s, VStr t => Ok (String.ltb s t)
  | _, _ => Raise TypeError
  end.

(** Stable insertion: [x] comes from before every element of [l] in the
    input, so it is placed before the first element that is not smaller. *)
Fixpoint insert_by_key {A : Type} (x : value * A) (l : list (value * A)) : result (list (value * A)) :=
  match l with
  | [] => Ok [x]
  | y :: l' =>
      b ← key_lt y.1 x.1;
      if b : bool then l'' ← insert_by_key x l'; Ok (y :: l'') else Ok (x :: y :: l')
  end.

Fixpoint sort_by_key {A : Type} (l : list (value * A)) : result (list (value * A)) :=
  match l with
  | [] => Ok []
  | x :: l' => l'' ← sort_by_key l'; insert_by_key x l''
  end.

Definition dev_get (dev : gmap string value) (k : string) : result value :=
  match dev !! k with
  | Some v => Ok v
  | None => Raise KeyError
  end.

(** [sorted(l, key = lambda x: x["displayName"])]: the keys are computed
    for the whole list first, then the list is sorted, stably. *)
Definition sorted_by_displayName (l : list (gmap string value)) : result (list (gmap string value)) :=
  keyed ← for_each (λ x acc, k ← dev_get x "displayName"; Ok (acc ++ [(k, x)])) l [];
  keyed ← sort_by_key keyed;
  Ok (keyed.*2).

Definition getDevices (data : value) : result (list (gmap string value)) :=
  simpleDevicesDict ← getSimplifiedDevices data;
  sorted_by_displayName (values simpleDevicesDict).

(** ** Printed output *)

(** A printed line is kept as the pieces it is formatted from: literal text
    and the objects substituted for the replacement fields. *)
Inductive piece : Type :=
| Lit (s : string)
| Arg (v : value)
| ArgW (v : value) (width : nat).

Definition line : Type := list piece.

Definition lit (s : string) : line :=
  match s with
  | EmptyString => []
  | _ => [Lit s]
  end.

(** [template.format(args)]: split the template at each [{}]. *)
Fixpoint format (template : string) (pending : string) (args : list value) : line :=
  match template with
  | EmptyString => lit pending
  | String "{" (String "}" template') =>
      match args with
      | a :: args' => lit pending ++ Arg a :: format template' "" args'
      | [] => lit pending ++ format template' "" []
      end
  | String c template' => format template' (pending +:+ String c "") args
  end.

Definition fmt (template : string) (args : list value) : line := format template "" args.

(** [print(s)] for a literal [s]; [print("")] is [text ""], the empty line. *)
Definition text (s : string) : line := lit s.

(** The line printed by [print("\n")]. *)
Definition newline : line := [Lit (String "010" "")].

(** Printing code: the lines printed so far, and the outcome. *)
Definition emit (A : Type) : Type := list line * result A.

#[global] Instance emit_ret : MRet emit := λ A a, ([], Ok a).
#[global] Instance emit_bind : MBind emit := λ A B f m,
  match m with
  | (out, Ok a) => let '(out', r) := f a in (out ++ out', r)
  | (out, Raise e) => (out, Raise e)
  end.

Definition print (l : line) : emit unit := ([l], Ok tt).
Definition eval {A : Type} (r : result A) : emit A := ([], r).

Fixpoint for_dev (body : gmap string value → emit unit) (l : list (gmap string value)) : emit unit :=
  match l with
  | [] => mret tt
  | dev :: l' => body dev ;; for_dev body l'
  end.

(** [k in dev] *)
Definition has (dev : gmap string value) (k : string) : bool :=
  match dev !! k with
  | Some _ => true
  | None => false
  end.

(** [print(template.format(dev[k1], dev[k2], ...))] *)
Definition printf (template : string) (dev : gmap string value) (ks : list string) : emit unit :=
  args ← eval (for_each (λ k acc, v ← dev_get dev k; Ok (acc ++ [v])) ks []);
  print (fmt template args).

(** [print(template.format(dev["id"], int(dev[k])))] *)
Definition printf_int (template : string) (dev : gmap string value) (k : string) : emit unit :=
  id ← eval (dev_get dev "id");
  v ← eval (dev_get dev k);
  n ← eval (py_int v);
  print (fmt template [id; VInt n]).

(** [if dev["present"] and k in dev: body] *)
Definition if_present_and (k : string) (dev : gmap string value) (body : emit unit) : emit unit :=
  present ← eval (dev_get dev "present");
  if truthy present && has dev k then body else mret tt.

(** [k in dev and dev[k] is not None] *)
Definition has_value (dev : gmap string value) (k : string) : bool :=
  match dev !! k with
  | Some VNone | None => false
  | Some _ => true
  end.

(** ** The metric emitter: [print_smart_home_measurements] *)

Definition value_temperatures (dev : gmap string value) : emit unit :=
  if_present_and "currentTemperatureInDegC" dev
    (printf "t{}.value {}" dev ["id"; "currentTemperatureInDegC"]).

Definition value_humidity (dev : gmap string value) : emit unit :=
  if_present_and "currentHumidityInPct" dev
    (printf "humidity{}.value {}" dev ["id"; "currentHumidityInPct"]).

Definition value_temperatures_target (dev : gmap string value) : emit unit :=
  present ← eval (dev_get dev "present");
  if truthy present && has_value dev "targetTemperatureInDegC" then
    printf "tsoll{}.value {}" dev ["id"; "targetTemperatureInDegC"]
  else mret tt.

Definition value_temperatures_detail (dev : gmap string value) : emit unit :=
  present ← eval (dev_get dev "present");
  if truthy present then
    print (text "") ;;
    printf "multigraph temperatures.t{}" dev ["id"] ;;
    (if has dev "refTemperatureInDegC" then
       printf "tref{}.value {}" dev ["id"; "refTemperatureInDegC"]
     else mret tt) ;;
    (if has dev "currentTemperatureInDegC" then
       printf "t{}.value {}" dev ["id"; "currentTemperatureInDegC"]
     else mret tt) ;;
    (if has_value dev "targetTemperatureInDegC" then
       printf "tsoll{}.value {}" dev ["id"; "targetTemperatureInDegC"]
     else mret tt)
  else mret tt.

Definition value_thermostat_modes (dev : gmap string value) : emit unit :=
  if_present_and "windowOpen" dev
    (printf_int "windowopenmode{}.value {}" dev "windowOpen").

Definition value_thermostat_modes_detail (dev : gmap string value) : emit unit :=
  if has dev "windowOpen" || has dev "summerActive" || has dev "holidayActive" then
    print newline ;;
    printf "multigraph thermostat_modes.id{}" dev ["id"] ;;
    (if has dev "windowOpen" then
       printf_int "windowopenmode{}.value {}" dev "windowOpen"
     else mret tt) ;;
    (if has dev "summerActive" then
       printf_int "summermode{}.value {}" dev "summerActive"
     else mret tt) ;;
    (if has dev "holidayActive" then
       printf_int "holidaymode{}.value {}" dev "holidayActive"
     else mret tt)
  else mret tt.

Definition value_battery (dev : gmap string value) : emit unit :=
  if_present_and "batteryChargeLevelInPct" dev
    (printf "battery{}.value {}" dev ["id"; "batteryChargeLevelInPct"]).

Definition value_batterylow (dev : gmap string value) : emit unit :=
  if_present_and "batteryLow" dev
    (printf "batterylow{}.value {}" dev ["id"; "batteryLow"]).

Definition value_voltage (dev : gmap string value) : emit unit :=
  if_present_and "voltageInVolt" dev
    (printf "voltage{}.value {}" dev ["id"; "voltageInVolt"]).

Definition value_smarthome_power (dev : gmap string value) : emit unit :=
  if_present_and "powerInWatt" dev
    (printf "smarthome_power{}.value {}" dev ["id"; "powerInWatt"]).

(** Lines 300-305: [int(dev["energyInKWH"] * 3600000)], printed in a field
    of width 15. *)
Definition value_smarthome_powerAvg (dev : gmap string value) : emit unit :=
  if_present_and "energyInKWH" dev
    (energyInKWH ← eval (dev_get dev "energyInKWH");
     product ← eval (py_mul energyInKWH 3600000);
     energyInJoule ← eval (py_int product);
     devID ← eval (dev_get dev "id");
     print [Lit "smarthome_powerAvg"; Arg devID; Lit ".value "; ArgW (VInt energyInJoule) 15]).

Definition value_energy (dev : gmap string value) : emit unit :=
  if_present_and "energyInKWH" dev
    (printf "energy{}.value {}" dev ["id"; "energyInKWH"]).

Definition value_smarthome_powerswitch (dev : gmap string value) : emit unit :=
  if_present_and "powerSwitchOn" dev
    (printf_int "smarthome_powerswitch{}.value {}" dev "powerSwitchOn").

Definition print_smart_home_measurements (simpleDevices : list (gmap string value)) : emit unit :=
  print (text "multigraph temperatures") ;;
  for_dev value_temperatures simpleDevices ;;
  print (text "") ;;
  print (text "multigraph humidity") ;;
  for_dev value_humidity simpleDevices ;;
  print newline ;;
  print (text "multigraph temperatures_target") ;;
  for_dev value_temperatures_target simpleDevices ;;
  for_dev value_temperatures_detail simpleDevices ;;
  print newline ;;
  print (text "multigraph thermostat_modes") ;;
  for_dev value_thermostat_modes simpleDevices ;;
  for_dev value_thermostat_modes_detail simpleDevices ;;
  print (text "") ;;
  print (text "multigraph battery") ;;
  for_dev value_battery simpleDevices ;;
  print (text "") ;;
  print (text "multigraph batterylow") ;;
  for_dev value_batterylow simpleDevices ;;
  print (text "") ;;
  print (text "multigraph voltage") ;;
  for_dev value_voltage simpleDevices ;;
  print (text "") ;;
  print (text "multigraph smarthome_power") ;;
  for_dev value_smarthome_power simpleDevices ;;
  print (text "") ;;
  print (text "multigraph smarthome_powerAvg") ;;
  for_dev value_smarthome_powerAvg simpleDevices ;;
  print (text "") ;;
  print (text "multigraph energy") ;;
  for_dev value_energy simpleDevices ;;
  print (text "") ;;
  print (text "multigraph smarthome_powerswitch") ;;
  for_dev value_smarthome_powerswitch simpleDevices.

(** ** The metadata emitter: [print_config] *)

Definition config_temperatures (dev : gmap string value) : emit unit :=
  if has dev "currentTemperatureInDegC" then
    printf "t{}.label {}" dev ["id"; "displayName"] ;;
    printf "t{}.type GAUGE" dev ["id"] ;;
    printf "t{}.graph LINE" dev ["id"] ;;
    printf "t{}.info Locally measured temperature [{} - {}]" dev ["id"; "model"; "identifier"]
  else mret tt.

Definition config_humidity (dev : gmap string value) : emit unit :=
  if_present_and "currentHumidityInPct" dev
    (printf "humidity{}.label {}" dev ["id"; "displayName"] ;;
     printf "humidity{}.type GAUGE" dev ["id"] ;;
     printf "humidity{}.graph LINE" dev ["id"] ;;
     printf "humidity{}.max 100" dev ["id"] ;;
     printf "humidity{}.min   0" dev ["id"] ;;
     printf "humidity{}.warning 30:70" dev ["id"] ;;
     printf "humidity{}.critical 20:75" dev ["id"] ;;
     printf "humidity{}.info Humidity [{} - {}]" dev ["id"; "model"; "identifier"]).

Definition config_temperatures_target (dev : gmap string value) : emit unit :=
  if has dev "targetTemperatureInDegC" then
    printf "tsoll{}.label {}" dev ["id"; "displayName"] ;;
    printf "tsoll{}.type GAUGE" dev ["id"] ;;
    printf "tsoll{}.graph LINE" dev ["id"] ;;
    printf "tsoll{}.info Target temperature [{} - {}]" dev ["id"; "model"; "identifier"]
  else mret tt.

Definition config_temperatures_detail (dev : gmap string value) : emit unit :=
  print newline ;;
  printf "multigraph temperatures.t{}" dev ["id"] ;;
  printf "graph_title Temperatures for {}" dev ["displayName"] ;;
  print (text "graph_vlabel degrees Celsius") ;;
  print (text "graph_category smart home") ;;
  print (text "graph_scale no") ;;
  print newline ;;
  (if has dev "currentTemperatureInDegC" then
     printf "t{}.label measured locally" dev ["id"] ;;
     printf "t{}.type GAUGE" dev ["id"] ;;
     printf "t{}.graph LINE" dev ["id"] ;;
     printf "t{}.warning 15:30" dev ["id"] ;;
     printf "t{}.critical 10:35" dev ["id"] ;;
     printf "t{}.info Locally measured temperature [{} - {}]" dev ["id"; "model"; "identifier"]
   else mret tt) ;;
  (if has dev "refTemperatureInDegC" then
     printf "tref{}.label measured ref." dev ["id"] ;;
     printf "tref{}.type GAUGE" dev ["id"] ;;
     printf "tref{}.graph LINE" dev ["id"] ;;
     printf "tref{}.info Measured reference temperature [{} - {}]" dev ["id"; "model"; "identifier"]
   else mret tt) ;;
  (if has dev "targetTemperatureInDegC" then
     printf "tsoll{}.label target" dev ["id"] ;;
     printf "tsoll{}.type GAUGE" dev ["id"] ;;
     printf "tsoll{}.graph LINE" dev ["id"] ;;
     printf "tsoll{}.info Target temperature [{} - {}]" dev ["id"; "model"; "identifier"]
   else mret tt).

Definition config_thermostat_modes (dev : gmap string value) : emit unit :=
  if_present_and "windowOpen" dev
    (printf "windowopenmode{}.label {}" dev ["id"; "displayName"] ;;
     printf "windowopenmode{}.type GAUGE" dev ["id"] ;;
     printf "windowopenmode{}.graph LINE" dev ["id"] ;;
     printf "windowopenmode{}.max   1" dev ["id"] ;;
     printf "windowopenmode{}.min   0" dev ["id"] ;;
     printf "windowopenmode{}.info Window Open Mode [{} - {}]" dev ["id"; "model"; "identifier"]).

Definition config_thermostat_modes_detail (dev : gmap string value) : emit unit :=
  if has dev "windowOpen" || has dev "summerActive" || has dev "holidayActive" then
    print newline ;;
    printf "multigraph thermostat_modes.id{}" dev ["id"] ;;
    printf "graph_title AVM Fritz!Box SmartHome Modes for {}" dev ["displayName"] ;;
    print (text "graph_vlabel on/off") ;;
    print (text "graph_category smart home") ;;
    print (text "graph_scale no") ;;
    print newline ;;
    (if has dev "windowOpen" then
       printf "windowopenmode{}.label Window Open" dev ["id"] ;;
       printf "windowopenmode{}.type  GAUGE" dev ["id"] ;;
       printf "windowopenmode{}.graph LINE" dev ["id"] ;;
       printf "windowopenmode{}.max   1" dev ["id"] ;;
       printf "windowopenmode{}.min   0" dev ["id"] ;;
       printf "windowopenmode{}.info Window Open Mode [{} - {}]" dev ["id"; "model"; "identifier"]
     else mret tt) ;;
    (if has dev "summerActive" then
       printf "summermode{}.label Summer Mode" dev ["id"] ;;
       printf "summermode{}.type  GAUGE" dev ["id"] ;;
       printf "summermode{}.graph LINE" dev ["id"] ;;
       printf "summermode{}.max   1" dev ["id"] ;;
       printf "summermode{}.min   0" dev ["id"] ;;
       printf "summermode{}.info Summer Mode [{} - {}]" dev ["id"; "model"; "identifier"]
     else mret tt) ;;
    (if has dev "holidayActive" then
       printf "holidaymode{}.label Holiday Mode" dev ["id"] ;;
       printf "holidaymode{}.type  GAUGE" dev ["id"] ;;
       printf "holidaymode{}.graph LINE" dev ["id"] ;;
       printf "holidaymode{}.max   1" dev ["id"] ;;
       printf "holidaymode{}.min   0" dev ["id"] ;;
       printf "holidaymode{}.info Holiday Mode [{} - {}]" dev ["id"; "model"; "identifier"]
     else mret tt)
  else mret tt.

Definition config_battery (dev : gmap string value) : emit unit :=
  if_present_and "batteryChargeLevelInPct" dev
    (printf "battery{}.label {}" dev ["id"; "displayName"] ;;
     printf "battery{}.type GAUGE" dev ["id"] ;;
     printf "battery{}.graph LINE" dev ["id"] ;;
     printf "battery{}.max 100" dev ["id"] ;;
     printf "battery{}.min   0" dev ["id"] ;;
     printf "battery{}.warning 30:110" dev ["id"] ;;
     printf "battery{}.critical 10:120" dev ["id"] ;;
     printf "battery{}.info Battery [{} - {}]" dev ["id"; "model"; "identifier"]).

Definition config_batterylow (dev : gmap string value) : emit unit :=
  if_present_and "batteryLow" dev
    (printf "batterylow{}.label {}" dev ["id"; "displayName"] ;;
     printf "batterylow{}.type GAUGE" dev ["id"] ;;
     printf "batterylow{}.graph LINE" dev ["id"] ;;
     printf "batterylow{}.max   1" dev ["id"] ;;
     printf "batterylow{}.min   0" dev ["id"] ;;
     printf "batterylow{}.warning  0.5" dev ["id"] ;;
     printf "batterylow{}.critical 1" dev ["id"] ;;
     printf "batterylow{}.info Battery Low Warning [{} - {}]" dev ["id"; "model"; "identifier"]).

Definition config_voltage (dev : gmap string value) : emit unit :=
  if_present_and "voltageInVolt" dev
    (printf "voltage{}.label {}" dev ["id"; "displayName"] ;;
     printf "voltage{}.type GAUGE" dev ["id"] ;;
     printf "voltage{}.graph LINE" dev ["id"] ;;
     printf "voltage{}.min     0" dev ["id"] ;;
     printf "voltage{}.warning  220:240" dev ["id"] ;;
     printf "voltage{}.critical 210:245" dev ["id"] ;;
     printf "voltage{}.info Voltage [{} - {}]" dev ["id"; "model"; "identifier"]).

Definition config_smarthome_power (dev : gmap string value) : emit unit :=
  if_present_and "powerInWatt" dev
    (printf "smarthome_power{}.label {}" dev ["id"; "displayName"] ;;
     printf "smarthome_power{}.type GAUGE" dev ["id"] ;;
     printf "smarthome_power{}.graph LINE" dev ["id"] ;;
     printf "smarthome_power{}.min      0" dev ["id"] ;;
     printf "smarthome_power{}.warning  1500" dev ["id"] ;;
     printf "smarthome_power{}.critical 2000" dev ["id"] ;;
     printf "smarthome_power{}.info Power [{} - {}]" dev ["id"; "model"; "identifier"]).

Definition config_smarthome_powerAvg (dev : gmap string value) : emit unit :=
  if_present_and "energyInKWH" dev
    (printf "smarthome_powerAvg{}.label {}" dev ["id"; "displayName"] ;;
     printf "smarthome_powerAvg{}.type DERIVE" dev ["id"] ;;
     printf "smarthome_powerAvg{}.graph LINE" dev ["id"] ;;
     printf "smarthome_powerAvg{}.min   0" dev ["id"] ;;
     printf "smarthome_powerAvg{}.info Power Average [{} - {}]" dev ["id"; "model"; "identifier"]).

Definition config_energy (dev : gmap string value) : emit unit :=
  if_present_and "energyInKWH" dev
    (printf "energy{}.label {}" dev ["id"; "displayName"] ;;
     printf "energy{}.type GAUGE" dev ["id"] ;;
     printf "energy{}.graph LINE" dev ["id"] ;;
     printf "energy{}.min   0" dev ["id"] ;;
     printf "energy{}.info Energy [{} - {}]" dev ["id"; "model"; "identifier"]).

Definition config_smarthome_powerswitch (dev : gmap string value) : emit unit :=
  if_present_and "powerSwitchOn" dev
    (printf "smarthome_powerswitch{}.label {}" dev ["id"; "displayName"] ;;
     printf "smarthome_powerswitch{}.type GAUGE" dev ["id"] ;;
     printf "smarthome_powerswitch{}.graph LINE" dev ["id"] ;;
     printf "smarthome_powerswitch{}.min   0" dev ["id"] ;;
     printf "smarthome_powerswitch{}.max   1" dev ["id"] ;;
     printf "smarthome_powerswitch{}.info On/Off [{} - {}]" dev ["id"; "model"; "identifier"]).

(** [[f'name{dev["id"]}' for dev in simpleDevices if (dev["present"] and k in dev)]] *)
Fixpoint id_list (name k : string) (simpleDevices : list (gmap string value)) : result (list line) :=
  match simpleDevices with
  | [] => Ok []
  | dev :: rest =>
      present ← dev_get dev "present";
      if truthy present && has dev k then
        id ← dev_get dev "id";
        ids ← id_list name k rest;
        Ok ([Lit name; Arg id] :: ids)
      else id_list name k rest
  end.

(** [sep.join(l)] on formatted fragments. *)
Fixpoint join (sep : string) (l : list line) : line :=
  match l with
  | [] => []
  | [x] => x
  | x :: l' => x ++ Lit sep :: join sep l'
  end.

(** [text + ",".join(l) + ",ADDNAN" * (len(l) - 1)] *)
Definition cdef (s : string) (l : list line) : line :=
  Lit s :: join "," l ++ replicate (length l - 1)%nat (Lit ",ADDNAN").

(** [print_config(simpleDevices)]; [host_name] is what
    [os.environ.get('host_name')] returns. *)
Definition print_config (host_name : option string) (simpleDevices : list (gmap string value)) : emit unit :=
  print (text "multigraph temperatures") ;;
  print (text "graph_title AVM Fritz!Box SmartHome Temperatures (locally measured)") ;;
  print (text "graph_vlabel degrees Celsius") ;;
  print (text "graph_category smart home") ;;
  print (text "graph_scale no") ;;
  print (text "") ;;
  for_dev config_temperatures simpleDevices ;;
  print newline ;;
  print (text "multigraph humidity") ;;
  print (text "graph_title AVM Fritz!Box SmartHome Humidity") ;;
  print (text "graph_vlabel percent") ;;
  print (text "graph_category smart home") ;;
  print (text "graph_scale no") ;;
  print newline ;;
  for_dev config_humidity simpleDevices ;;
  print newline ;;
  print (text "multigraph temperatures_target") ;;
  print (text "graph_title AVM Fritz!Box SmartHome Target Temperatures") ;;
  print (text "graph_vlabel degrees Celsius") ;;
  print (text "graph_category smart home") ;;
  print (text "graph_scale no") ;;
  print (text "") ;;
  for_dev config_temperatures_target simpleDevices ;;
  for_dev config_temperatures_detail simpleDevices ;;
  print newline ;;
  print (text "multigraph thermostat_modes") ;;
  print (text "graph_title AVM Fritz!Box SmartHome Thermostat Modes") ;;
  print (text "graph_vlabel on/off") ;;
  print (text "graph_category smart home") ;;
  print (text "graph_scale no") ;;
  print newline ;;
  for_dev config_thermostat_modes simpleDevices ;;
  for_dev config_thermostat_modes_detail simpleDevices ;;
  print newline ;;
  print (text "multigraph battery") ;;
  print (text "graph_title AVM Fritz!Box SmartHome Battery") ;;
  print (text "graph_vlabel percent") ;;
  print (text "graph_category smart home") ;;
  print (text "graph_scale no") ;;
  print newline ;;
  for_dev config_battery simpleDevices ;;
  print newline ;;
  print (text "multigraph batterylow") ;;
  print (text "graph_title AVM Fritz!Box SmartHome Battery Low Warning") ;;
  print (text "graph_vlabel ok/warning") ;;
  print (text "graph_category smart home") ;;
  print (text "graph_scale no") ;;
  print newline ;;
  for_dev config_batterylow simpleDevices ;;
  print newline ;;
  print (text "multigraph voltage") ;;
  print (text "graph_title AVM Fritz!Box SmartHome Voltage") ;;
  print (text "graph_vlabel Volt") ;;
  print (text "graph_category smart home") ;;
  print (text "graph_scale no") ;;
  print newline ;;
  for_dev config_voltage simpleDevices ;;
  print newline ;;
  print (text "multigraph smarthome_power") ;;
  print (text "graph_title AVM Fritz!Box SmartHome Power") ;;
  print (text "graph_vlabel Watt") ;;
  print (text "graph_category smart home") ;;
  print (text "graph_scale no") ;;
  powerIdList ← eval (id_list "smarthome_power" "powerInWatt" simpleDevices);
  print (Lit "graph_order total_smarthome_power " :: join " " powerIdList) ;;
  print newline ;;
  for_dev config_smarthome_power simpleDevices ;;
  print (text "total_smarthome_power.label       total") ;;
  print (cdef "total_smarthome_power.cdef        " powerIdList) ;;
  print (text "total_smarthome_power.min         0") ;;
  print newline ;;
  print (text "multigraph smarthome_powerAvg") ;;
  print (text "graph_title AVM Fritz!Box SmartHome Power Average (from Energy)") ;;
  print (text "graph_vlabel W") ;;
  print (text "graph_category smart home") ;;
  print (text "graph_scale no") ;;
  powerAvgIdList ← eval (id_list "smarthome_powerAvg" "energyInKWH" simpleDevices);
  print (Lit "graph_order total_smarthome_powerAvg " :: join " " powerAvgIdList) ;;
  print newline ;;
  for_dev config_smarthome_powerAvg simpleDevices ;;
  print (text "total_smarthome_powerAvg.label       total") ;;
  print (cdef "total_smarthome_powerAvg.cdef        " powerAvgIdList) ;;
  print (text "total_smarthome_powerAvg.min         0") ;;
  print newline ;;
  print (text "multigraph energy") ;;
  print (text "graph_title AVM Fritz!Box SmartHome Energy") ;;
  print (text "graph_vlabel kWh") ;;
  print (text "graph_category smart home") ;;
  print (text "graph_scale no") ;;
  energyIdList ← eval (id_list "energy" "energyInKWH" simpleDevices);
  print (Lit "graph_order total_energy " :: join " " energyIdList) ;;
  print newline ;;
  for_dev config_energy simpleDevices ;;
  print (text "total_energy.label       total") ;;
  print (cdef "total_energy.cdef        " energyIdList) ;;
  print (text "total_energy.min         0") ;;
  print newline ;;
  print (text "multigraph smarthome_powerswitch") ;;
  print (text "graph_title AVM Fritz!Box SmartHome Power Switch") ;;
  print (text "graph_vlabel On/Off") ;;
  print (text "graph_category smart home") ;;
  print (text "graph_scale no") ;;
  print newline ;;
  for_dev config_smarthome_powerswitch simpleDevices ;;
  match host_name with
  | Some h => if truthy (VStr h) then print [Lit "host_name "; Lit h] else mret tt
  | None => mret tt
  end.

(** ** Vocabulary of the statements *)

(** The attributes every device is read for, lines 49-60. *)
Definition required_attributes : list string :=
  ["displayName"; "category"; "type"; "units"; "masterConnectionState";
   "id"; "model"; "actorIdentificationNumber"].

(** The five keys of the dict literal of lines 56-61. *)
Definition always_present : list string :=
  ["id"; "displayName"; "present"; "model"; "identifier"].

(** The keys the skill handlers store into. *)
Definition skill_fields : list string :=
  ["mode"; "summerActive"; "holidyActive"; "windowOpen"; "holidayActive";
   "targetTemperatureInDegC"; "refTemperatureInDegC";
   "currentTemperatureInDegC"; "currentHumidityInPct";
   "batteryChargeLevelInPct"; "currentInAmp"; "powerInWatt"; "energyInKWH";
   "voltageInVolt"; "powerSwitchOn"].

(** A skill is metered when its type is one of the six that store a field. *)
Definition metered_type (skillType : value) : bool :=
  eq_str skillType "SmartHomeThermostat"
  || eq_str skillType "SmartHomeTemperatureSensor"
  || eq_str skillType "SmartHomeHumiditySensor"
  || eq_str skillType "SmartHomeBattery"
  || eq_str skillType "SmartHomeMultimeter"
  || eq_str skillType "SmartHomeSwitch".

Definition metered (skill : value) : bool :=
  match getitem skill "type" with
  | Ok skillType => metered_type skillType
  | Raise _ => false
  end.

Definition iterable (obj : value) : list value :=
  match iter obj with
  | Ok l => l
  | Raise _ => []
  end.

Definition attr (obj : value) (k : string) : value :=
  match getitem obj k with
  | Ok v => v
  | Raise _ => VNone
  end.

(** Every skill of every unit of a device. *)
Definition skills_of (device : value) : list value :=
  unit ← iterable (attr device "units"); iterable (attr unit "skills").

Definition has_keys (ks : list string) (obj : value) : bool :=
  match obj with
  | VDict d => forallb (λ k, bool_decide (is_Some (dict_get k d))) ks
  | _ => false
  end.

Definition is_list (obj : value) : bool :=
  match obj with
  | VList _ => true
  | _ => false
  end.

(** A device of the documented shape: a dict with the required attributes
    whose units are a list of dicts, each with its four attributes and a
    list of skills that are dicts with a type. *)
Definition unit_shaped (unit : value) : bool :=
  has_keys ["displayName"; "skills"; "type"; "id"] unit
  && is_list (attr unit "skills")
  && forallb (has_keys ["type"]) (iterable (attr unit "skills")).

Definition device_shaped (device : value) : bool :=
  has_keys required_attributes device
  && is_list (attr device "units")
  && forallb unit_shaped (iterable (attr device "units")).



(** The items of the mapping stored under a key equal to [kk]. *)
Definition entries (kk : key) (m : devmap) : devmap :=
  filter (λ item, key_eqb item.1.2 kk = true) m.



(** *** Reading the printed output *)

(** A header line opens a multigraph group; the group is named by the
    header line itself. *)
Definition is_header (l : line) : bool :=
  match l with
  | Lit s :: _ => String.prefix "multigraph " s
  | _ => false
  end.

(** The metric and the device id a line [<metric><id>.<attribute> ...] is
    about. *)
Definition field_of_line (l : line) : option (string * value) :=
  match l with
  | Lit metric :: Arg id :: Lit rest :: _ =>
      if String.prefix "." rest then Some (metric, id) else None
  | _ => None
  end.

(** The groups of an output, in order. *)
Fixpoint groups (out : list line) : list line :=
  match out with
  | [] => []
  | l :: out' => if is_header l then l :: groups out' else groups out'
  end.

(** The metric lines of an output, each with the group it stands in;
    [cur] is the group that is open at the start. *)
Fixpoint fields (cur : option line) (out : list line) : list (line * (string * value)) :=
  match out with
  | [] => []
  | l :: out' =>
      if is_header l then fields (Some l) out'
      else match field_of_line l, cur with
           | Some f, Some g => (g, f) :: fields cur out'
           | _, _ => fields cur out'
           end
  end.

(** The group that is open after an output. *)
Fixpoint open_group (cur : option line) (out : list line) : option line :=
  match out with
  | [] => cur
  | l :: out' => open_group (if is_header l then Some l else cur) out'
  end.

(** The loop bodies of the metric emitter that test [dev["present"]]. *)
Definition presence_filtered : list (gmap string value → emit unit) :=
  [value_temperatures; value_humidity; value_temperatures_target;
   value_temperatures_detail; value_thermostat_modes; value_battery;
   value_batterylow; value_voltage; value_smarthome_power;
   value_smarthome_powerAvg; value_energy; value_smarthome_powerswitch].

(** A record whose device is connected and whose target temperature, if
    stored, is not [None]. *)
Definition reporting (dev : gmap string value) : Prop :=
  (∃ present, dev !! "present" = Some present ∧ truthy present = true)
  ∧ dev !! "targetTemperatureInDegC" ≠ Some VNone.

(** A record with the five always-present keys. *)
Definition record (dev : gmap string value) : Prop :=
  Forall (λ k, is_Some (dev !! k)) always_present.

(** Two outputs with the same groups in the same order and, whatever group
    is open at their start, the same metric lines in each group. *)
Definition same_groups (oc om : list line) : Prop :=
  groups oc = groups om ∧ ∀ cur x, x ∈ fields cur oc ↔ x ∈ fields cur om.

(** The output has a metric line of device [id] in group [g]. *)
Definition declares (out : list line) (g : line) (id : value) : Prop :=
  ∃ metric, (g, (metric, id)) ∈ fields None out.


(** The order that [key_lt] induces on keyed items. *)
Definition keyed_le {A : Type} (a b : value * A) : Prop :=
  ∃ s t, a.1 = VStr s ∧ b.1 = VStr t ∧ String.le s t.

(** *** Sample documents *)

Definition sample_device (id : Z) (name connected : string) (skills : list value) : value :=
  VDict [("displayName", VStr name); ("category", VStr "THERMOSTAT");
         ("type", VStr "SmartHomeDevice");
         ("units", VList [VDict [("displayName", VStr name); ("skills", VList skills);
                                 ("type", VStr "UNIT"); ("id", VInt (id + 1))]]);
         ("masterConnectionState", VStr connected); ("id", VInt id);
         ("model", VStr "FRITZ!DECT 301");
         ("actorIdentificationNumber", VStr "09995 0000001")].

Definition sample_data (devices : list value) : value :=
  VDict [("data", VDict [("devices", VList devices)])].

(** A thermostat that reports both shapes at once. *)
Definition skill_both_shapes : list (string * value) :=
  [("type", VStr "SmartHomeThermostat");
   ("state", VDict [("current", VStr "HOLIDAY")]);
   ("summerActive", VInt 1)].

(** A thermostat of the newer firmware with its window open. *)
Definition skill_window_open : list (string * value) :=
  [("type", VStr "SmartHomeThermostat");
   ("state", VDict [("current", VStr "WINDOW_OPEN")]);
   ("targetTemp", VInt 21)].

(** A temperature sensor that has no reading yet. *)
Definition skill_sensor_silent : list (string * value) :=
  [("type", VStr "SmartHomeTemperatureSensor")].

(** A multimeter that reports 500 for the power per hour. *)
Definition skill_meter_500 : list (string * value) :=
  [("type", VStr "SmartHomeMultimeter"); ("powerPerHour", VInt 500)].

(** A temperature sensor reading 19 degrees. *)
Definition skill_sensor_19 : list (string * value) :=
  [("type", VStr "SmartHomeTemperatureSensor"); ("currentInCelsius", VInt 19)].

(** The record of a sensor device that is not connected. *)
Definition record_disconnected : gmap string value :=
  <["currentTemperatureInDegC" := VInt 19]>
    (base_fields (VInt 9) (VStr "Attic") (VStr "DISCONNECTED")
       (VStr "FRITZ!DECT 301") (VStr "09995 0000001")).

(** The record of a connected plug that metered 500. *)
Definition record_meter_500 : gmap string value :=
  <["energyInKWH" := VFloat (S754_finite false 4503599627370496 (-53))]>
    (base_fields (VInt 23) (VStr "Plug") (VStr "CONNECTED")
       (VStr "FRITZ!DECT 301") (VStr "09995 0000001")).

(** The record of the thermostat that reports both shapes. *)
Definition record_both_shapes : gmap string value :=
  <["targetTemperatureInDegC" := VNone]>
  (<["summerActive" := VInt 1]>
  (<["windowOpen" := VInt 0]>
  (<["holidyActive" := VInt 1]>
    (base_fields (VInt 17) (VStr "Bath") (VStr "CONNECTED")
       (VStr "FRITZ!DECT 301") (VStr "09995 0000001"))))).

(** The record of the thermostat with its window open. *)
Definition record_window_open : gmap string value :=
  <["targetTemperatureInDegC" := VInt 21]>
  (<["windowOpen" := VInt 1]>
  (<["holidyActive" := VInt 0]>
  (<["summerActive" := VInt 0]>
    (base_fields (VInt 17) (VStr "Bath") (VStr "CONNECTED")
       (VStr "FRITZ!DECT 301") (VStr "09995 0000001"))))).

(** The record of the sensor without a reading. *)
Definition record_silent : gmap string value :=
  <["currentTemperatureInDegC" := VNone]>
    (base_fields (VInt 5) (VStr "Hall") (VStr "CONNECTED")
       (VStr "FRITZ!DECT 301") (VStr "09995 0000001")).

(** Parsers that accept no string, for documents without numeric strings. *)
Definition no_float : string → option spec_float := λ _, None.
Definition no_int : string → option Z := λ _, None.

(** A socket skill and a skill of a type the code does not know. *)
Definition skill_socket : list (string * value) :=
  [("type", VStr "SmartHomeSocket"); ("state", VStr "ON")].
Definition skill_unknown : list (string * value) :=
  [("type", VStr "SmartHomeColorControl"); ("hue", VInt 120)].

(** Two devices that report the same id. *)
Definition device_first : value :=
  sample_device 23 "Old" "CONNECTED" [VDict skill_sensor_19].
Definition device_second : value :=
  sample_device 23 "Plug" "CONNECTED" [VDict skill_meter_500].

(** [writes F d d']: [d'] differs from [d] at most at the keys in [F]. *)
Definition writes (F : list string) (d d' : gmap string value) : Prop :=
  ∀ k, k ∉ F → d' !! k = d !! k.

(** ** Further vocabulary *)

(** The record fields that a skill of the given type may store. *)
Definition fields_of_type (skillType : value) : list string :=
  if eq_str skillType "SmartHomeThermostat" then
    ["mode"; "summerActive"; "holidyActive"; "windowOpen"; "holidayActive";
     "targetTemperatureInDegC"; "refTemperatureInDegC"]
  else if eq_str skillType "SmartHomeTemperatureSensor" then
    ["currentTemperatureInDegC"]
  else if eq_str skillType "SmartHomeHumiditySensor" then
    ["currentHumidityInPct"]
  else if eq_str skillType "SmartHomeBattery" then
    ["batteryChargeLevelInPct"]
  else if eq_str skillType "SmartHomeMultimeter" then
    ["currentInAmp"; "powerInWatt"; "energyInKWH"; "voltageInVolt"]
  else if eq_str skillType "SmartHomeSocket" then
    []
  else if eq_str skillType "SmartHomeSwitch" then
    ["powerSwitchOn"]
  else [].

(** The four readings that are stored as [None] when absent: the skill
    type, the field of the skill and the field of the record. *)
Definition readings : list (string * string * string) :=
  [("SmartHomeThermostat", "targetTemp", "targetTemperatureInDegC");
   ("SmartHomeTemperatureSensor", "currentInCelsius", "currentTemperatureInDegC");
   ("SmartHomeHumiditySensor", "currentInPercent", "currentHumidityInPct");
   ("SmartHomeBattery", "chargeLevelInPercent", "batteryChargeLevelInPct")].

(** The devices of an answer, [data["data"]["devices"]]. *)
Definition devices_of (data : value) : list value :=
  iterable (attr (attr data "data") "devices").

(** The attributes every unit is read for, lines 67-70. *)
Definition unit_attributes : list string := ["displayName"; "skills"; "type"; "id"].

(** The record's display name is the string [s]. *)
Definition has_name (s : string) (dev : gmap string value) : bool :=
  match dev !! "displayName" with
  | Some v => eq_str v s
  | None => false
  end.

(** The reading of the last of the referenced skills that has one. *)
Definition last_reading (refSkills : list (list (string * value))) : option value :=
  last (omap (dict_get "currentInCelsius") refSkills).

(** The dict key a device is stored under: the normal form of its id. *)
Definition id_key (device : value) : option key := key_of (attr device "id").

Definition fails {A : Type} (m : emit A) : Prop := ∃ e, m.2 = Raise e.



(** Two records with the same keys and the same identity fields. *)
Definition same_shape (a b : gmap string value) : Prop :=
  (∀ k, has a k = has b k) ∧ (∀ k, k ∈ always_present → a !! k = b !! k).

(** ** The entry point, lines 646-665 *)

(** How a run ends: at the end of the script, by [sys.exit] with a message,
    or by an exception that nothing catches. *)
Inductive outcome : Type :=
| Completed
| Exit (message : string)
| Uncaught (e : exn).

(** [len(sys.argv) == 2 and sys.argv[1] == mode] *)
Definition is_mode (argv : list string) (mode : string) : bool :=
  (length argv =? 2)%nat && bool_decide (argv !! 1%nat = Some mode).

(** Printing code at the top level of the script: an exception ends the
    run. *)
Definition run (m : emit unit) : list line * outcome :=
  match m with
  | (out, Ok _) => (out, Completed)
  | (out, Raise e) => (out, Uncaught e)
  end.

(** ["MUNIN_CAP_DIRTYCONFIG" in os.environ and
    os.environ["MUNIN_CAP_DIRTYCONFIG"] == "1"] *)
Definition dirtyconfig (environ : gmap string string) : bool :=
  match environ !! "MUNIN_CAP_DIRTYCONFIG" with
  | Some v => String.eqb v "1"
  | None => false
  end.

(** The branch of [config], lines 647-652.  [answer] is what
    [postPageWithLogin] returned, or the exception it raised. *)
Definition config_mode (environ : gmap string string) (answer : result value) : emit unit :=
  devices ← eval (answer ≫= getDevices);
  print_config (environ !! "host_name") devices ;;
  if dirtyconfig environ then
    print (text "") ;; print_smart_home_measurements devices
  else mret tt.

(** The branch of [fetch], lines 660-665: the bare [except] turns every
    exception into [sys.exit] with a message. *)
Definition fetch_mode (answer : result value) : list line * outcome :=
  match (devices ← eval (answer ≫= getDevices);
         print_smart_home_measurements devices) with
  | (out, Ok _) => (out, Completed)
  | (out, Raise _) => (out, Exit "Couldn't retrieve fritzbox smarthome data")
  end.

(** The [if]/[elif] chain of the script.  The [debug] mode prints the answer
    and the records through [pprint], whose layout is not modelled: [None]. *)
Definition main (argv : list string) (environ : gmap string string) (answer : result value)
    : option (list line * outcome) :=
  if is_mode argv "config" then Some (run (config_mode environ answer))
  else if is_mode argv "autoconf" then Some (run (print (text "yes")))
  else if is_mode argv "debug" then None
  else if (length argv =? 1)%nat || is_mode argv "fetch" then Some (fetch_mode answer)
  else Some ([], Completed).


(** *** Further sample documents *)

(** A multimeter whose power per hour is [null]. *)
Definition skill_meter_null : list (string * value) :=
  [("type", VStr "SmartHomeMultimeter"); ("powerPerHour", VNone)].

(** A thermostat whose reference sensor has a reading, then a skill
    without one. *)
Definition skill_with_reference : list (string * value) :=
  [("type", VStr "SmartHomeThermostat");
   ("usedTempSensor",
    VDict [("skills", VList [VDict skill_sensor_19; VDict skill_sensor_silent])])].



(** A record whose legacy window flag is a word. *)
Definition record_window_yes : gmap string value :=
  <["windowOpen" := VStr "yes"]>
    (base_fields (VInt 17) (VStr "Bath") (VStr "CONNECTED")
       (VStr "FRITZ!DECT 301") (VStr "09995 0000001")).

(** The record of the sensor of the hall once it reads 19 degrees. *)
Definition record_hall_19 : gmap string value :=
  <["currentTemperatureInDegC" := VInt 19]>
    (base_fields (VInt 5) (VStr "Hall") (VStr "CONNECTED")
       (VStr "FRITZ!DECT 301") (VStr "09995 0000001")).

(** * Properties *)

(** ** Exceptions and loops *)

Lemma bind_Ok {A B : Type} (m : result A) (f : A → result B) (b : B) :
  m ≫= f = Ok b ↔ ∃ a, m = Ok a ∧ f a = Ok b.
Proof.
  destruct m as [a|e]; simpl; split.
  - eauto.
  - by intros (a' & [= <-] & H).
  - done.
  - by intros (a' & ? & _).
Qed.

Ltac ok_inv H :=
  repeat match type of H with
  | _ ≫= _ = Ok _ =>
      let a := fresh "a" in let Ha := fresh "Ha" in
      apply bind_Ok in H as (a & Ha & H)
  end.

Lemma for_each_app {A S : Type} (body : A → S → result S) (l1 l2 : list A) (s : S) :
  for_each body (l1 ++ l2) s = for_each body l1 s ≫= for_each body l2.
Proof.
  revert s. induction l1 as [|x l1 IH]; intros s; simpl; [done|].
  destruct (body x s); simpl; [apply IH | done].
Qed.

(** A property kept by every successful step is kept by the loop. *)
Lemma for_each_invariant {A S : Type} (P : S → Prop) (body : A → S → result S)
    (l : list A) (s s' : S) :
  (∀ x t t', x ∈ l → P t → body x t = Ok t' → P t') →
  P s → for_each body l s = Ok s' → P s'.
Proof.
  revert s. induction l as [|x l IH]; intros s Hstep Hs H; simpl in H.
  - by injection H as <-.
  - ok_inv H. apply (IH a); [|eauto using list_elem_of_here|done].
    intros y t t' Hy. apply Hstep. by apply list_elem_of_further.
Qed.

(** A loop whose steps all leave the state alone leaves it alone. *)
Lemma for_each_skip {A S : Type} (body : A → S → result S) (l : list A) (s : S) :
  Forall (λ x, body x s = Ok s) l → for_each body l s = Ok s.
Proof.
  induction 1 as [|x l Hx _ IH]; simpl; [done|]. by rewrite Hx.
Qed.

(** A failing step makes the loop fail. *)
Lemma for_each_Raise {A S : Type} (body : A → S → result S) (l : list A) (x : A) (s : S) :
  x ∈ l → (∀ t, ∃ e, body x t = Raise e) → ∃ e, for_each body l s = Raise e.
Proof.
  intros Hx Hfail. revert s.
  induction l as [|y l IH]; intros s; [by apply elem_of_nil in Hx|].
  simpl. apply elem_of_cons in Hx as [<-|Hx].
  - destruct (Hfail s) as [e ->]. by exists e.
  - destruct (body y s) as [t|e]; simpl; [by apply IH | by exists e].
Qed.

(** ** Field writes *)

Lemma writes_refl (F : list string) (d : gmap string value) : writes F d d.
Proof. by intros k _. Qed.

Lemma writes_trans (F : list string) (d1 d2 d3 : gmap string value) :
  writes F d1 d2 → writes F d2 d3 → writes F d1 d3.
Proof. intros H12 H23 k Hk. by rewrite H23, H12. Qed.

Lemma writes_mono (F F' : list string) (d d' : gmap string value) :
  F ⊆ F' → writes F d d' → writes F' d d'.
Proof. intros HF H k Hk. apply H. intros Hin. by apply Hk, HF. Qed.

Lemma writes_insert (F : list string) (k : string) (v : value) (d : gmap string value) :
  k ∈ F → writes F d (<[k := v]> d).
Proof. intros Hk k' Hk'. apply lookup_insert_ne. by intros ->. Qed.

Lemma if_in_Ok (k : string) (obj : value)
    (body : value → gmap string value → result (gmap string value))
    (d d' : gmap string value) :
  if_in k obj body d = Ok d' →
  (contains k obj = Ok false ∧ d' = d)
  ∨ (∃ v, contains k obj = Ok true ∧ getitem obj k = Ok v ∧ body v d = Ok d').
Proof.
  unfold if_in. intros H. ok_inv H. destruct a.
  - ok_inv H. right. eauto.
  - injection H as <-. by left.
Qed.

Lemma copy_Ok (k : string) (obj : value) (field : string) (d d' : gmap string value) :
  copy k obj field d = Ok d' →
  (contains k obj = Ok false ∧ d' = d)
  ∨ (∃ v, contains k obj = Ok true ∧ getitem obj k = Ok v ∧ d' = <[field := v]> d).
Proof.
  intros [H|(v & ? & ? & [= <-])]%if_in_Ok; [by left|right; eauto].
Qed.

Lemma copy_or_none_Ok (k : string) (obj : value) (field : string) (d d' : gmap string value) :
  copy_or_none k obj field d = Ok d' →
  (contains k obj = Ok false ∧ d' = <[field := VNone]> d)
  ∨ (∃ v, contains k obj = Ok true ∧ getitem obj k = Ok v ∧ d' = <[field := v]> d).
Proof.
  unfold copy_or_none. intros H. ok_inv H. destruct a.
  - ok_inv H. injection H as <-. right. eauto.
  - injection H as <-. by left.
Qed.

(** The presence test on a dict: a key that is there is read, a key that
    is not there skips the body without an exception. *)
Lemma if_in_present (k : string) (d : list (string * value)) (v : value)
    (body : value → gmap string value → result (gmap string value))
    (sd : gmap string value) :
  dict_get k d = Some v → if_in k (VDict d) body sd = body v sd.
Proof.
  intros H. unfold if_in. simpl. rewrite H. by rewrite bool_decide_true by eauto.
Qed.

Lemma if_in_absent (k : string) (d : list (string * value))
    (body : value → gmap string value → result (gmap string value))
    (sd : gmap string value) :
  dict_get k d = None → if_in k (VDict d) body sd = Ok sd.
Proof.
  intros H. unfold if_in. simpl. rewrite H.
  by rewrite bool_decide_false by (by intros [? ?]).
Qed.

Lemma copy_or_none_absent (k : string) (d : list (string * value))
    (field : string) (sd : gmap string value) :
  dict_get k d = None → copy_or_none k (VDict d) field sd = Ok (<[field := VNone]> sd).
Proof.
  intros H. unfold copy_or_none. simpl. rewrite H.
  by rewrite bool_decide_false by (by intros [? ?]).
Qed.

Lemma if_in_writes (F : list string) (k : string) (obj : value)
    (body : value → gmap string value → result (gmap string value))
    (d d' : gmap string value) :
  (∀ v t t', body v t = Ok t' → writes F t t') →
  if_in k obj body d = Ok d' → writes F d d'.
Proof.
  intros Hbody [[_ ->]|(v & _ & _ & H)]%if_in_Ok; [apply writes_refl|eauto].
Qed.

Lemma copy_writes (k : string) (obj : value) (field : string) (d d' : gmap string value) :
  copy k obj field d = Ok d' → writes [field] d d'.
Proof.
  intros [[_ ->]|(v & _ & _ & ->)]%copy_Ok; [apply writes_refl|].
  apply writes_insert, list_elem_of_here.
Qed.

Lemma copy_or_none_writes (k : string) (obj : value) (field : string) (d d' : gmap string value) :
  copy_or_none k obj field d = Ok d' → writes [field] d d'.
Proof.
  intros [[_ ->]|(v & _ & _ & ->)]%copy_or_none_Ok;
    apply writes_insert, list_elem_of_here.
Qed.

Lemma for_each_writes {A : Type} (F : list string)
    (body : A → gmap string value → result (gmap string value))
    (l : list A) (d d' : gmap string value) :
  (∀ x t t', body x t = Ok t' → writes F t t') →
  for_each body l d = Ok d' → writes F d d'.
Proof.
  intros Hbody. apply (for_each_invariant (writes F d)); [|apply writes_refl].
  intros x t t' _ Ht Hx. eapply writes_trans; eauto.
Qed.

(** Membership of a literal key in a literal list of keys. *)
Ltac key_in :=
  apply list_elem_of_In; simpl; repeat (first [left; reflexivity | right]).
Ltac key_notin :=
  let H := fresh in intros H; apply list_elem_of_In in H; simpl in H;
  repeat destruct H as [H|H]; (discriminate H || exact H).
Ltac keys_incl :=
  let k := fresh in let H := fresh in
  intros k H; apply list_elem_of_In in H; simpl in H;
  repeat destruct H as [<-|H]; [key_in..|destruct H].

Ltac writes_chain :=
  repeat (eapply writes_trans; [eapply writes_mono; [|eassumption]; keys_incl|]);
  apply writes_refl.

Lemma new_state_writes (skill : value) (d d' : gmap string value) :
  new_state skill d = Ok d' →
  writes ["summerActive"; "holidyActive"; "windowOpen"] d d'.
Proof.
  apply if_in_writes. intros state t t'. apply if_in_writes.
  intros current u u' [= <-].
  eapply writes_trans; [|apply writes_insert; key_in].
  eapply writes_trans; apply writes_insert; key_in.
Qed.

Lemma old_state_writes (skill : value) (d d' : gmap string value) :
  old_state skill d = Ok d' →
  writes ["summerActive"; "holidayActive"; "windowOpen"] d d'.
Proof.
  unfold old_state. intros H. ok_inv H.
  apply copy_writes in Ha, Ha0.
  eapply writes_trans; [eapply writes_mono, Ha; keys_incl|].
  eapply writes_trans; [eapply writes_mono, Ha0; keys_incl|].
  revert H. apply if_in_writes. intros tdd t t' Ht%copy_writes.
  eapply writes_mono, Ht. keys_incl.
Qed.

Lemma usedTempSensor_writes (skill : value) (d d' : gmap string value) :
  usedTempSensor skill d = Ok d' → writes ["refTemperatureInDegC"] d d'.
Proof.
  apply if_in_writes. intros sensor t t' H. ok_inv H.
  revert H. apply for_each_writes. intros refSkill u u'. apply copy_writes.
Qed.

Lemma SmartHomeThermostat_writes (skill : value) (d d' : gmap string value) :
  SmartHomeThermostat skill d = Ok d' → writes skill_fields d d'.
Proof.
  unfold SmartHomeThermostat. intros H. ok_inv H.
  apply copy_writes in Ha. apply new_state_writes in Ha0.
  apply old_state_writes in Ha1. apply copy_or_none_writes in Ha2.
  apply usedTempSensor_writes in H.
  writes_chain.
Qed.

Lemma SmartHomeMultimeter_writes (skill : value) (d d' : gmap string value) :
  SmartHomeMultimeter skill d = Ok d' → writes skill_fields d d'.
Proof.
  unfold SmartHomeMultimeter. intros H. ok_inv H.
  apply copy_writes in Ha, Ha0, H.
  assert (writes ["energyInKWH"] a0 a1) as Ha1'.
  { revert Ha1. apply if_in_writes. intros p t t' Hp. ok_inv Hp.
    injection Hp as <-. apply writes_insert. key_in. }
  writes_chain.
Qed.

Lemma SmartHomeSwitch_writes (skill : value) (d d' : gmap string value) :
  SmartHomeSwitch skill d = Ok d' → writes skill_fields d d'.
Proof.
  apply if_in_writes. intros state t t' [= <-]. apply writes_insert. key_in.
Qed.

(** Whatever its type, a skill stores into [skill_fields] only. *)
Lemma apply_skill_writes (skill : value) (d d' : gmap string value) :
  apply_skill skill d = Ok d' → writes skill_fields d d'.
Proof.
  unfold apply_skill. intros H. ok_inv H.
  repeat match type of H with
  | (if ?c then _ else _) = _ => destruct c
  end;
  first
    [ exact (SmartHomeThermostat_writes _ _ _ H)
    | exact (SmartHomeMultimeter_writes _ _ _ H)
    | exact (SmartHomeSwitch_writes _ _ _ H)
    | injection H as <-; apply writes_refl
    | apply copy_or_none_writes in H; eapply writes_mono, H; keys_incl ].
Qed.

(** ** The nested loops, flattened *)

Lemma apply_unit_skills (unit : value) (d d' : gmap string value) :
  apply_unit unit d = Ok d' →
  for_each apply_skill (iterable (attr unit "skills")) d = Ok d'.
Proof.
  unfold apply_unit, attr, iterable. intros H. ok_inv H. by rewrite Ha0, Ha3.
Qed.

Lemma for_each_units_skills (units : list value) (d d' : gmap string value) :
  for_each apply_unit units d = Ok d' →
  for_each apply_skill (unit ← units; iterable (attr unit "skills")) d = Ok d'.
Proof.
  revert d. induction units as [|u units IH]; intros d H; simpl in H; [done|].
  ok_inv H. rewrite bind_cons, for_each_app.
  apply apply_unit_skills in Ha. rewrite Ha. simpl. by apply IH.
Qed.

(** A device that is normalized has its eight attributes, and its record is
    the dict literal run through every skill in turn. *)
Lemma simplify_device_Ok (device devID : value) (sd : gmap string value) :
  simplify_device device = Ok (devID, sd) →
  ∃ name connected model identifier,
    getitem device "displayName" = Ok name
    ∧ getitem device "masterConnectionState" = Ok connected
    ∧ getitem device "id" = Ok devID
    ∧ getitem device "model" = Ok model
    ∧ getitem device "actorIdentificationNumber" = Ok identifier
    ∧ for_each apply_skill (skills_of device)
        (base_fields devID name connected model identifier) = Ok sd.
Proof.
  unfold simplify_device. intros H. ok_inv H. injection H as <- <-.
  exists a, a3, a5, a6. repeat split; try done.
  unfold skills_of, attr, iterable. rewrite Ha2, Ha7.
  by apply for_each_units_skills.
Qed.

(** ** C1: the legacy state fields are applied last *)

Lemma apply_skill_thermostat (skill : value) (d d' : gmap string value) :
  eq_str (attr skill "type") "SmartHomeThermostat" = true →
  apply_skill skill d = Ok d' → SmartHomeThermostat skill d = Ok d'.
Proof.
  unfold apply_skill, attr. intros Ht H. ok_inv H. rewrite Ha in Ht.
  by rewrite Ht in H.
Qed.

Lemma apply_skill_other_writes (skill : value) (d d' : gmap string value) :
  eq_str (attr skill "type") "SmartHomeThermostat" = false →
  apply_skill skill d = Ok d' →
  writes ["currentTemperatureInDegC"; "currentHumidityInPct";
          "batteryChargeLevelInPct"; "currentInAmp"; "powerInWatt";
          "energyInKWH"; "voltageInVolt"; "powerSwitchOn"] d d'.
Proof.
  unfold apply_skill, attr. intros Ht H. ok_inv H. rewrite Ha in Ht.
  rewrite Ht in H.
  repeat match type of H with
  | (if ?c then _ else _) = _ => destruct c
  end.
  - apply copy_or_none_writes in H. eapply writes_mono, H. keys_incl.
  - apply copy_or_none_writes in H. eapply writes_mono, H. keys_incl.
  - apply copy_or_none_writes in H. eapply writes_mono, H. keys_incl.
  - unfold SmartHomeMultimeter in H. ok_inv H.
    apply copy_writes in Ha0, Ha1, H.
    assert (writes ["energyInKWH"] a1 a2) as Ha2'.
    { revert Ha2. apply if_in_writes. intros p t t' Hp. ok_inv Hp.
      injection Hp as <-. apply writes_insert. key_in. }
    writes_chain.
  - injection H as <-. apply writes_refl.
  - revert H. apply if_in_writes. intros state t t' [= <-].
    apply writes_insert. key_in.
  - injection H as <-. apply writes_refl.
Qed.

(** What the newer shape stores: the three flags, the holiday one under
    the key ["holidyActive"]. *)
Lemma new_state_current (d state : list (string * value)) (current : value)
    (sd : gmap string value) :
  dict_get "state" d = Some (VDict state) →
  dict_get "current" state = Some current →
  new_state (VDict d) sd =
    Ok (<["windowOpen" := flag (eq_str current "WINDOW_OPEN")]>
       (<["holidyActive" := flag (eq_str current "HOLIDAY")]>
       (<["summerActive" := flag (eq_str current "SUMMER")]> sd))).
Proof.
  intros Hs Hc. unfold new_state.
  rewrite (if_in_present _ _ _ _ _ Hs). by rewrite (if_in_present _ _ _ _ _ Hc).
Qed.

(** After the legacy block, each legacy field present holds its own value. *)
Lemma old_state_legacy (d : list (string * value)) (sd sd' : gmap string value) :
  old_state (VDict d) sd = Ok sd' →
  (∀ v, dict_get "summerActive" d = Some v → sd' !! "summerActive" = Some v)
  ∧ (∀ v, dict_get "holidayActive" d = Some v → sd' !! "holidayActive" = Some v)
  ∧ (∀ tdd w, dict_get "temperatureDropDetection" d = Some (VDict tdd) →
       dict_get "isWindowOpen" tdd = Some w → sd' !! "windowOpen" = Some w).
Proof.
  unfold old_state. intros H. ok_inv H.
  pose proof (copy_writes _ _ _ _ _ Ha0) as W2.
  assert (writes ["windowOpen"] a0 sd') as W3.
  { revert H. apply if_in_writes. intros tdd t t'. apply copy_writes. }
  split; [|split].
  - intros v Hv. rewrite W3, W2 by key_notin.
    apply copy_Ok in Ha as [[Hc _]|(v' & _ & Hg & ->)]; [simpl in Hc|simpl in Hg].
    + rewrite Hv in Hc. by rewrite bool_decide_true in Hc by eauto.
    + rewrite Hv in Hg. injection Hg as <-. apply lookup_insert_eq.
  - intros v Hv. rewrite W3 by key_notin.
    apply copy_Ok in Ha0 as [[Hc _]|(v' & _ & Hg & ->)]; [simpl in Hc|simpl in Hg].
    + rewrite Hv in Hc. by rewrite bool_decide_true in Hc by eauto.
    + rewrite Hv in Hg. injection Hg as <-. apply lookup_insert_eq.
  - intros tdd w Ht Hw.
    apply if_in_Ok in H as [[Hc _]|(v' & _ & Hg & H)]; [simpl in Hc|simpl in Hg].
    + rewrite Ht in Hc. by rewrite bool_decide_true in Hc by eauto.
    + rewrite Ht in Hg. injection Hg as <-.
      apply copy_Ok in H as [[Hc _]|(v' & _ & Hg & ->)]; [simpl in Hc|simpl in Hg].
      * rewrite Hw in Hc. by rewrite bool_decide_true in Hc by eauto.
      * rewrite Hw in Hg. injection Hg as <-. apply lookup_insert_eq.
Qed.

(** C1. When a thermostat skill carries a legacy flat field
    ([summerActive], [holidayActive], [temperatureDropDetection.isWindowOpen]),
    the record of its device holds that field's value, whatever the newer
    [state.current] of the same skill says: the legacy block runs after the
    newer one.  The skill is the device's last thermostat skill; with
    [summerActive = 1] and [state.current == "HOLIDAY"] the record has
    [summerActive = 1]. *)
Theorem legacy_state_wins (device devID : value) (sd : gmap string value)
    (before after : list value) (d : list (string * value)) :
  simplify_device device = Ok (devID, sd) →
  skills_of device = before ++ VDict d :: after →
  eq_str (attr (VDict d) "type") "SmartHomeThermostat" = true →
  Forall (λ skill, eq_str (attr skill "type") "SmartHomeThermostat" = false) after →
  (∀ v, dict_get "summerActive" d = Some v → sd !! "summerActive" = Some v)
  ∧ (∀ v, dict_get "holidayActive" d = Some v → sd !! "holidayActive" = Some v)
  ∧ (∀ tdd w, dict_get "temperatureDropDetection" d = Some (VDict tdd) →
       dict_get "isWindowOpen" tdd = Some w → sd !! "windowOpen" = Some w).
Proof.
  intros (name & connected & model & identifier & _ & _ & _ & _ & _ & H)%simplify_device_Ok
    Hskills Htype Hafter.
  rewrite Hskills, for_each_app in H. ok_inv H. simpl in H. ok_inv H.
  apply apply_skill_thermostat in Ha0; [|done].
  unfold SmartHomeThermostat in Ha0. ok_inv Ha0.
  apply old_state_legacy in Ha3 as (Hsummer & Hholiday & Hwindow).
  assert (writes ["targetTemperatureInDegC"; "refTemperatureInDegC";
                  "currentTemperatureInDegC"; "currentHumidityInPct";
                  "batteryChargeLevelInPct"; "currentInAmp"; "powerInWatt";
                  "energyInKWH"; "voltageInVolt"; "powerSwitchOn"] a3 sd) as W.
  { apply copy_or_none_writes in Ha4. apply usedTempSensor_writes in Ha0.
    eapply writes_trans; [eapply writes_mono, Ha4; keys_incl|].
    eapply writes_trans; [eapply writes_mono, Ha0; keys_incl|].
    revert H. apply for_each_invariant; [|apply writes_refl].
    intros skill t t' Hin Ht Hstep. eapply writes_trans; [exact Ht|].
    eapply writes_mono; [|eapply apply_skill_other_writes, Hstep].
    - keys_incl.
    - rewrite Forall_forall in Hafter. by apply Hafter. }
  split; [|split].
  - intros v Hv. rewrite W by key_notin. by apply Hsummer.
  - intros v Hv. rewrite W by key_notin. by apply Hholiday.
  - intros tdd w Ht Hw. rewrite W by key_notin. by eapply Hwindow.
Qed.

(** ** C2: the newer shape and the holiday flag *)

(** C2. At a thermostat skill with [state.current == "WINDOW_OPEN"] and no
    legacy field the normalizer stores [windowOpen = 1] and
    [summerActive = 0], but no ["holidayActive"]: the third flag goes to the
    key ["holidyActive"], which no emitter reads. *)
Theorem window_open_state_record :
  getSimplifiedDevices
    (sample_data [sample_device 17 "Bath" "CONNECTED" [VDict skill_window_open]])
  = Ok [(VInt 17, KNum 17 0, record_window_open)]
  ∧ record_window_open !! "windowOpen" = Some (VInt 1)
  ∧ record_window_open !! "summerActive" = Some (VInt 0)
  ∧ record_window_open !! "holidayActive" = None
  ∧ record_window_open !! "holidyActive" = Some (VInt 0).
Proof. repeat split; vm_compute; reflexivity. Qed.

(** ** C6: devices without a metered skill *)

Lemma metered_false (skill skillType : value) :
  getitem skill "type" = Ok skillType → metered skill = false →
  eq_str skillType "SmartHomeThermostat" = false
  ∧ eq_str skillType "SmartHomeTemperatureSensor" = false
  ∧ eq_str skillType "SmartHomeHumiditySensor" = false
  ∧ eq_str skillType "SmartHomeBattery" = false
  ∧ eq_str skillType "SmartHomeMultimeter" = false
  ∧ eq_str skillType "SmartHomeSwitch" = false.
Proof.
  unfold metered, metered_type. intros -> H.
  repeat (apply orb_false_elim in H as [H ?]). by repeat split.
Qed.

(** A skill of another type, known or not, is stepped over. *)
Lemma apply_skill_unmetered (skill skillType : value) (d : gmap string value) :
  getitem skill "type" = Ok skillType → metered skill = false →
  apply_skill skill d = Ok d.
Proof.
  intros Ht Hm. destruct (metered_false _ _ Ht Hm) as (H1 & H2 & H3 & H4 & H5 & H6).
  unfold apply_skill. rewrite Ht. simpl. rewrite H1, H2, H3, H4, H5, H6.
  by destruct (eq_str skillType "SmartHomeSocket").
Qed.

Lemma apply_skill_unmetered_Ok (skill : value) (d d' : gmap string value) :
  metered skill = false → apply_skill skill d = Ok d' → d' = d.
Proof.
  intros Hm H. assert (∃ t, getitem skill "type" = Ok t) as [t Ht].
  { unfold apply_skill in H. ok_inv H. eauto. }
  rewrite (apply_skill_unmetered _ _ _ Ht Hm) in H. by injection H.
Qed.

Lemma has_keys_getitem (ks : list string) (obj : value) (k : string) :
  has_keys ks obj = true → k ∈ ks → getitem obj k = Ok (attr obj k).
Proof.
  unfold has_keys, attr. destruct obj; try done. intros H Hk.
  rewrite forallb_forall in H. apply list_elem_of_In, H in Hk.
  apply bool_decide_eq_true in Hk as [v Hv]. simpl. by rewrite Hv.
Qed.

Lemma is_list_iter (obj : value) : is_list obj = true → iter obj = Ok (iterable obj).
Proof. by destruct obj. Qed.

Lemma apply_unit_unmetered (unit : value) (d : gmap string value) :
  unit_shaped unit = true →
  Forall (λ skill, metered skill = false) (iterable (attr unit "skills")) →
  apply_unit unit d = Ok d.
Proof.
  unfold unit_shaped. intros [[Hk Hl]%andb_prop Hs]%andb_prop Hm.
  unfold apply_unit.
  rewrite !(has_keys_getitem _ _ _ Hk) by key_in. simpl.
  rewrite (is_list_iter _ Hl). simpl.
  apply for_each_skip. rewrite Forall_forall in Hm. apply Forall_forall.
  intros skill Hin. rewrite forallb_forall in Hs.
  eapply apply_skill_unmetered; [|by apply Hm].
  apply (has_keys_getitem ["type"]); [|key_in]. by apply Hs, list_elem_of_In.
Qed.

Lemma dom_base_fields (devID name connected model identifier : value) :
  dom (base_fields devID name connected model identifier)
  = list_to_set always_present.
Proof.
  unfold base_fields, always_present. rewrite !dom_insert_L, dom_empty_L.
  apply set_eq. intros k. simpl.
  rewrite !elem_of_union, !elem_of_singleton, elem_of_empty.
  split; intros [->|[->|[->|[->|[->|[]]]]]]; auto 10.
Qed.

(** C6. A device none of whose skills is a thermostat, temperature sensor,
    humidity sensor, battery, multimeter or switch (so only
    [SmartHomeSocket] or unrecognized types): whenever the normalizer
    produces its record, the record is the dict literal of lines 56-61, with
    exactly the keys id, displayName, present, model and identifier; each of
    its skills that has a type is stepped over without an exception; and a
    device of the documented shape does get its record. *)
Theorem unmetered_device_record (device : value) :
  Forall (λ skill, metered skill = false) (skills_of device) →
  (∀ devID sd, simplify_device device = Ok (devID, sd) →
     dom sd = list_to_set always_present
     ∧ sd = base_fields devID (attr device "displayName")
              (attr device "masterConnectionState") (attr device "model")
              (attr device "actorIdentificationNumber"))
  ∧ (∀ skill skillType d, skill ∈ skills_of device →
       getitem skill "type" = Ok skillType → apply_skill skill d = Ok d)
  ∧ (device_shaped device = true →
       simplify_device device
       = Ok (attr device "id",
             base_fields (attr device "id") (attr device "displayName")
               (attr device "masterConnectionState") (attr device "model")
               (attr device "actorIdentificationNumber"))).
Proof.
  intros Hm. split; [|split].
  - intros devID sd (name & connected & model & identifier & Hn & Hc & _ & Hmo & Hi & H)%simplify_device_Ok.
    unfold attr. rewrite Hn, Hc, Hmo, Hi.
    assert (sd = base_fields devID name connected model identifier) as ->.
    { revert H.
      apply (for_each_invariant (λ t, t = base_fields devID name connected model identifier));
        [|done].
      intros skill t t' Hin -> Hstep. eapply apply_skill_unmetered_Ok; [|done].
      rewrite Forall_forall in Hm. by apply Hm. }
    split; [apply dom_base_fields|done].
  - intros skill skillType d Hin Ht. eapply apply_skill_unmetered; [done|].
    rewrite Forall_forall in Hm. by apply Hm.
  - unfold device_shaped. intros [[Hk Hl]%andb_prop Hu]%andb_prop.
    unfold simplify_device. unfold required_attributes in Hk.
    rewrite !(has_keys_getitem _ _ _ Hk) by key_in. simpl.
    rewrite (is_list_iter _ Hl). simpl.
    rewrite for_each_skip; [done|].
    apply Forall_forall. intros unit Hin. apply apply_unit_unmetered.
    + rewrite forallb_forall in Hu. by apply Hu, list_elem_of_In.
    + apply Forall_forall. intros skill Hs. rewrite Forall_forall in Hm.
      apply Hm. unfold skills_of. apply list_elem_of_bind. eauto.
Qed.

(** ** C7: required attributes and optional fields *)





(** ** C9: no record has a battery-low field *)

Lemma simplify_device_skill_fields (device devID : value) (sd : gmap string value) (k : string) :
  simplify_device device = Ok (devID, sd) →
  k ∉ always_present → k ∉ skill_fields → sd !! k = None.
Proof.
  intros (name & connected & model & identifier & _ & _ & _ & _ & _ & H)%simplify_device_Ok Hk1 Hk2.
  assert (writes skill_fields (base_fields devID name connected model identifier) sd) as W.
  { revert H. apply for_each_writes. intros skill t t'. apply apply_skill_writes. }
  rewrite W by done. unfold base_fields.
  rewrite !lookup_insert_ne; [done|..];
    intros <-; apply Hk1; key_in.
Qed.

Lemma devmap_set_Forall (P : gmap string value → Prop) (m : devmap) (k : value) (kk : key)
    (d : gmap string value) :
  Forall (λ item, P item.2) m → P d → Forall (λ item, P item.2) (devmap_set m k kk d).
Proof.
  intros Hm Hd. induction Hm as [|[[k' kk'] d'] m Hx Hm IH]; simpl.
  - by repeat constructor.
  - destruct (key_eqb kk' kk); constructor; done.
Qed.

(** Every record of the mapping is the record of one of the devices. *)
Lemma getSimplifiedDevices_records (P : gmap string value → Prop) (data : value) (m : devmap) :
  (∀ device devID sd, simplify_device device = Ok (devID, sd) → P sd) →
  getSimplifiedDevices data = Ok m → Forall (λ item, P item.2) m.
Proof.
  intros HP H. unfold getSimplifiedDevices in H. ok_inv H. revert H.
  apply for_each_invariant; [|constructor].
  intros device t t' _ Ht Hstep. unfold store_device in Hstep. ok_inv Hstep.
  destruct a2 as [devID sd]. unfold setitem in Hstep.
  destruct (key_of devID); [|done]. injection Hstep as <-.
  apply devmap_set_Forall; eauto.
Qed.

(** ** C10: devices that share an id *)

Lemma key_eqb_true (k1 k2 : key) : key_eqb k1 k2 = true ↔ k1 = k2 ∧ k1 ≠ KNaN.
Proof.
  unfold key_eqb. destruct k1; rewrite ?bool_decide_eq_true;
    (split; [intros H; by split|intros [H H']; done || by destruct H']).
Qed.

Lemma entries_cons (kk : key) (item : value * key * gmap string value) (m : devmap) :
  entries kk (item :: m)
  = if key_eqb item.1.2 kk then item :: entries kk m else entries kk m.
Proof.
  unfold entries. rewrite filter_cons.
  destruct (key_eqb item.1.2 kk); by case_decide.
Qed.

(** Storing under a key leaves exactly one item for it, with the new record. *)
Lemma entries_devmap_set_eq (m : devmap) (k : value) (kk : key) (d : gmap string value) :
  kk ≠ KNaN → (length (entries kk m) ≤ 1)%nat →
  (entries kk (devmap_set m k kk d)).*2 = [d].
Proof.
  intros Hkk. induction m as [|[[k' kk'] d'] m IH]; simpl; intros Hlen.
  - rewrite entries_cons. simpl.
    by rewrite (proj2 (key_eqb_true kk kk)) by done.
  - rewrite entries_cons in Hlen. simpl in Hlen.
    destruct (key_eqb kk' kk) eqn:E.
    + rewrite entries_cons. simpl. rewrite E. simpl.
      destruct (entries kk m); [done|simpl in Hlen; lia].
    + rewrite entries_cons. simpl. rewrite E. by apply IH.
Qed.

(** Storing under a key leaves the items of every other key alone. *)
Lemma entries_devmap_set_ne (m : devmap) (k : value) (kk kk0 : key) (d : gmap string value) :
  kk ≠ kk0 → entries kk0 (devmap_set m k kk d) = entries kk0 m.
Proof.
  intros Hne. induction m as [|[[k' kk'] d'] m IH]; simpl.
  - rewrite entries_cons. simpl. destruct (key_eqb kk kk0) eqn:E; [|done].
    by apply key_eqb_true in E as [? _].
  - destruct (key_eqb kk' kk) eqn:E.
    + apply key_eqb_true in E as [-> _]. rewrite !entries_cons. simpl.
      destruct (key_eqb kk kk0) eqn:E'; [|done].
      by apply key_eqb_true in E' as [? _].
    + rewrite !entries_cons. simpl. by rewrite IH.
Qed.

Lemma entries_NaN (m : devmap) : entries KNaN m = [].
Proof.
  induction m as [|[[k' kk'] d'] m IH]; [done|].
  rewrite entries_cons. simpl. destruct (key_eqb kk' KNaN) eqn:E; [|done].
  apply key_eqb_true in E as [-> ?]. done.
Qed.

Lemma entries_devmap_set_length (m : devmap) (k : value) (kk kk0 : key) (d : gmap string value) :
  (length (entries kk0 m) ≤ 1)%nat →
  (length (entries kk0 (devmap_set m k kk d)) ≤ 1)%nat.
Proof.
  intros Hlen. destruct (decide (kk = kk0)) as [->|Hne].
  - destruct (decide (kk0 = KNaN)) as [->|Hnan].
    + rewrite entries_NaN. simpl. lia.
    + pose proof (entries_devmap_set_eq m k kk0 d Hnan Hlen) as H.
      apply (f_equal length) in H. rewrite length_fmap in H. simpl in H. lia.
  - by rewrite entries_devmap_set_ne.
Qed.

Lemma store_device_Ok (device : value) (m m' : devmap) :
  store_device device m = Ok m' →
  ∃ devID sd kk, simplify_device device = Ok (devID, sd)
    ∧ key_of devID = Some kk ∧ attr device "id" = devID
    ∧ m' = devmap_set m devID kk sd.
Proof.
  unfold store_device. intros H. ok_inv H. destruct a as [devID sd].
  unfold setitem in H. destruct (key_of devID) as [kk|] eqn:E; [|done].
  injection H as <-. exists devID, sd, kk. repeat split; try done.
  apply simplify_device_Ok in Ha as (? & ? & ? & ? & _ & _ & Hid & _).
  unfold attr. by rewrite Hid.
Qed.

(** No key has two items in the mapping. *)
Lemma for_each_store_device_unique (devices : list value) (m m' : devmap) (kk0 : key) :
  (length (entries kk0 m) ≤ 1)%nat →
  for_each store_device devices m = Ok m' →
  (length (entries kk0 m') ≤ 1)%nat.
Proof.
  apply (for_each_invariant (λ m, (length (entries kk0 m) ≤ 1)%nat)).
  intros device t t' _ Ht (devID & sd & kk & _ & _ & _ & ->)%store_device_Ok.
  by apply entries_devmap_set_length.
Qed.

(** C10. When several devices of the answer have equal ids, the returned
    mapping has exactly one item for that id, and its record is the one
    built from the last of these devices: [device] is any device after which
    no device with an equal id follows. *)
Theorem last_device_of_an_id_wins (data : value) (m : devmap)
    (before after : list value) (device devID : value)
    (sd : gmap string value) (kk : key) :
  getSimplifiedDevices data = Ok m →
  iterable (attr (attr data "data") "devices") = before ++ device :: after →
  simplify_device device = Ok (devID, sd) →
  key_of devID = Some kk → kk ≠ KNaN →
  Forall (λ later, key_of (attr later "id") ≠ Some kk) after →
  (entries kk m).*2 = [sd].
Proof.
  intros H Hdevices Hdev Hkey Hnan Hafter.
  unfold getSimplifiedDevices in H. ok_inv H.
  unfold attr, iterable in Hdevices. rewrite Ha, Ha0, Ha1 in Hdevices.
  subst a1. rewrite for_each_app in H. ok_inv H. simpl in H. ok_inv H.
  apply store_device_Ok in Ha3 as (devID' & sd' & kk' & Hdev' & Hkey' & _ & ->).
  rewrite Hdev in Hdev'. injection Hdev' as <- <-.
  rewrite Hkey in Hkey'. injection Hkey' as <-.
  revert H. apply (for_each_invariant (λ t : devmap, (entries kk t).*2 = [sd])).
  - intros later t t' Hin Ht (devID' & sd' & kk' & _ & Hk' & Hid & ->)%store_device_Ok.
    rewrite entries_devmap_set_ne; [done|].
    intros ->. rewrite Forall_forall in Hafter.
    apply (Hafter later Hin). by rewrite Hid.
  - apply entries_devmap_set_eq; [done|].
    eapply for_each_store_device_unique, Ha2. simpl. lia.
Qed.

(** ** C8: the sorter *)

Lemma ltb_le (s t : string) : String.ltb s t = true → String.le s t.
Proof.
  unfold String.ltb, String.le, String.leb.
  destruct (s ?= t)%string; simpl; done.
Qed.

Lemma not_ltb_le (s t : string) : String.ltb s t = false → String.le t s.
Proof.
  unfold String.ltb, String.le, String.leb. rewrite (String.compare_antisym s t).
  destruct (t ?= s)%string; simpl; done.
Qed.

Lemma keyed_le_trans {A : Type} (a b c : value * A) :
  keyed_le a b → keyed_le b c → keyed_le a c.
Proof.
  intros (s & t & Ha & Hb & Hst) (t' & u & Hb' & Hc & Htu).
  rewrite Hb in Hb'. injection Hb' as <-.
  exists s, u. repeat split; try done. by etrans.
Qed.

Lemma key_lt_Ok (a b : value) (r : bool) :
  key_lt a b = Ok r → ∃ s t, a = VStr s ∧ b = VStr t ∧ r = String.ltb s t.
Proof. destruct a, b; try done. intros [= <-]. eauto. Qed.

Lemma insert_by_key_Ok {A : Type} (x : value * A) (l l' : list (value * A)) :
  insert_by_key x l = Ok l' → StronglySorted keyed_le l →
  Permutation (x :: l) l' ∧ StronglySorted keyed_le l'.
Proof.
  revert l'. induction l as [|y l IH]; intros l' H Hs; simpl in H.
  - injection H as <-. split; [done|]. by repeat constructor.
  - ok_inv H. apply key_lt_Ok in Ha as (s & t & Hy & Hx & ->).
    apply StronglySorted_inv in Hs as [Hs Hy'].
    destruct (String.ltb s t) eqn:E.
    + ok_inv H. injection H as <-. destruct (IH _ Ha Hs) as [Hp Hs'].
      split; [by rewrite <-Hp, Permutation_swap|].
      constructor; [done|]. rewrite <-Hp. constructor; [|done].
      exists s, t. repeat split; try done. by apply ltb_le.
    + injection H as <-. split; [done|].
      assert (keyed_le x y) as Hxy.
      { exists t, s. repeat split; try done. by apply not_ltb_le. }
      constructor; [by constructor|]. constructor; [done|].
      eapply Forall_impl; [exact Hy'|]. intros z. by apply keyed_le_trans.
Qed.

Lemma sort_by_key_Ok {A : Type} (l l' : list (value * A)) :
  sort_by_key l = Ok l' → Permutation l l' ∧ StronglySorted keyed_le l'.
Proof.
  revert l'. induction l as [|x l IH]; intros l' H; simpl in H.
  - injection H as <-. split; [done|constructor].
  - ok_inv H. destruct (IH _ Ha) as [Hp Hs].
    destruct (insert_by_key_Ok _ _ _ H Hs) as [Hp' Hs'].
    split; [by rewrite Hp|done].
Qed.



Lemma dev_get_Some (dev : gmap string value) (k : string) (v : value) :
  dev !! k = Some v → dev_get dev k = Ok v.
Proof. unfold dev_get. by intros ->. Qed.

(** The decoration loop pairs every record with its display name. *)
Lemma decorate_Ok (l : list (gmap string value)) (acc keyed : list (value * gmap string value)) :
  for_each (λ x acc, k ← dev_get x "displayName"; Ok (acc ++ [(k, x)])) l acc = Ok keyed →
  ∃ keyed', keyed = acc ++ keyed' ∧ keyed'.*2 = l
    ∧ Forall (λ y, y.2 !! "displayName" = Some y.1) keyed'.
Proof.
  revert acc. induction l as [|x l IH]; intros acc H; simpl in H.
  - injection H as <-. exists []. by rewrite app_nil_r.
  - ok_inv H. ok_inv Ha. injection Ha as <-.
    destruct (IH _ H) as (keyed' & -> & <- & Hall).
    exists ((a0, x) :: keyed'). rewrite <-app_assoc. repeat split; try done.
    constructor; [|done]. simpl. unfold dev_get in Ha0.
    by destruct (x !! "displayName"); simplify_eq.
Qed.




(** ** Printing *)

Lemma emit_ret_bind {A : Type} (f : unit → emit A) : mret tt ≫= f = f tt.
Proof. unfold mret, emit_ret, mbind, emit_bind. by destruct (f tt). Qed.

Lemma emit_bind_assoc {A B C : Type} (m : emit A) (f : A → emit B) (g : B → emit C) :
  (m ≫= f) ≫= g = m ≫= (λ a, f a ≫= g).
Proof.
  unfold mbind, emit_bind. destruct m as [o [a|e]]; [|done].
  destruct (f a) as [o' [b|e]]; [|done].
  destruct (g b) as [o'' r]. by rewrite app_assoc.
Qed.

Lemma emit_bind_Ok {A B : Type} (m : emit A) (f : A → emit B) (out : list line) (b : B) :
  m ≫= f = (out, Ok b) →
  ∃ o1 a o2, m = (o1, Ok a) ∧ f a = (o2, Ok b) ∧ out = o1 ++ o2.
Proof.
  unfold mbind, emit_bind. destruct m as [o1 [a|e]]; [|done].
  destruct (f a) as [o2 r] eqn:E. intros [= <- ->]. eauto 10.
Qed.

Lemma for_dev_app (body : gmap string value → emit unit) (l1 l2 : list (gmap string value)) :
  for_dev body (l1 ++ l2) = (for_dev body l1 ;; for_dev body l2).
Proof.
  induction l1 as [|d l1 IH]; cbn [for_dev app].
  - symmetry. apply (emit_ret_bind (λ _, for_dev body l2)).
  - by rewrite emit_bind_assoc, IH.
Qed.

(** A device whose step prints nothing can be dropped from the loop. *)
Lemma for_dev_skip (body : gmap string value → emit unit) (l1 l2 : list (gmap string value))
    (dev : gmap string value) :
  body dev = mret tt → for_dev body (l1 ++ dev :: l2) = for_dev body (l1 ++ l2).
Proof.
  intros H. rewrite !for_dev_app. cbn [for_dev]. by rewrite H, emit_ret_bind.
Qed.


Lemma if_present_and_absent (k : string) (dev : gmap string value) (present : value)
    (body : emit unit) :
  dev !! "present" = Some present → truthy present = false →
  if_present_and k dev body = mret tt.
Proof.
  intros Hp Ht. unfold if_present_and. rewrite (dev_get_Some _ _ _ Hp).
  simpl. by rewrite Ht.
Qed.


(** ** C4: devices that are not connected *)

Lemma presence_filtered_absent (dev : gmap string value) (present : value) :
  dev !! "present" = Some present → truthy present = false →
  Forall (λ body, body dev = mret tt) presence_filtered.
Proof.
  intros Hp Ht. unfold presence_filtered.
  repeat constructor;
    first [ by eapply if_present_and_absent
          | unfold value_temperatures_target, value_temperatures_detail;
            rewrite (dev_get_Some _ _ _ Hp); simpl; by rewrite Ht ].
Qed.

(** C4, as the code has it.  For a record whose [present] is false, every
    loop of the metric emitter that tests [dev["present"]] prints nothing,
    and these include the top-level temperatures listing and the per-device
    temperature block, whether or not a current temperature is stored.  The
    one loop without the test is the per-device thermostat mode block: it
    prints its block when a flag is stored, and otherwise the whole output
    is what it is without the device. *)
Theorem absent_device_lines (dev : gmap string value) (present : value) :
  dev !! "present" = Some present → truthy present = false →
  Forall (λ body, body dev = mret tt) presence_filtered
  ∧ (has dev "windowOpen" || has dev "summerActive" || has dev "holidayActive" = true →
       ∃ out r, value_thermostat_modes_detail dev = (newline :: out, r))
  ∧ (has dev "windowOpen" || has dev "summerActive" || has dev "holidayActive" = false →
       ∀ before after,
         print_smart_home_measurements (before ++ dev :: after)
         = print_smart_home_measurements (before ++ after)).
Proof.
  intros Hp Ht. pose proof (presence_filtered_absent _ _ Hp Ht) as Hall.
  split; [done|split].
  - intros Hflag. unfold value_thermostat_modes_detail. rewrite Hflag.
    unfold print at 1. unfold mbind at 1, emit_bind at 1.
    match goal with
    | |- context [let '(_, _) := ?m in _] => destruct m as [out r]
    end.
    by exists out, r.
  - intros Hflag before after.
    assert (value_thermostat_modes_detail dev = mret tt) as Hdetail.
    { unfold value_thermostat_modes_detail. by rewrite Hflag. }
    unfold presence_filtered in Hall.
    repeat match goal with
    | H : Forall _ (_ :: _) |- _ => apply Forall_cons in H as [? H]
    end.
    unfold print_smart_home_measurements.
    by rewrite !for_dev_skip by done.
Qed.

(** ** C5: from power per hour to joules *)



(** ** Groups and metric lines of an output *)

Lemma groups_app (a b : list line) : groups (a ++ b) = groups a ++ groups b.
Proof.
  induction a as [|l a IH]; simpl; [done|]. destruct (is_header l); simpl; by rewrite IH.
Qed.

Lemma fields_app (cur : option line) (a b : list line) :
  fields cur (a ++ b) = fields cur a ++ fields (open_group cur a) b.
Proof.
  revert cur. induction a as [|l a IH]; intros cur; simpl; [done|].
  destruct (is_header l); [apply IH|].
  destruct (field_of_line l), cur; simpl; by rewrite IH.
Qed.

Lemma open_group_groups (cur : option line) (a : list line) :
  open_group cur a = from_option Some cur (last (groups a)).
Proof.
  revert cur. induction a as [|l a IH]; intros cur; simpl; [done|].
  rewrite IH. destruct (is_header l); [|done].
  simpl. rewrite last_cons. by destruct (last (groups a)).
Qed.

Lemma same_groups_app (a a' b b' : list line) :
  same_groups a a' → same_groups b b' → same_groups (a ++ b) (a' ++ b').
Proof.
  intros [Hg Hf] [Hg' Hf']. split.
  - by rewrite !groups_app, Hg, Hg'.
  - intros cur x. rewrite !fields_app, !elem_of_app, !open_group_groups, Hg.
    by rewrite Hf, Hf'.
Qed.

Lemma same_groups_nil : same_groups [] [].
Proof. by split. Qed.

Lemma same_groups_header (h : line) (a b : list line) :
  is_header h = true → same_groups a b → same_groups (h :: a) (h :: b).
Proof.
  intros Hh [Hg Hf]. split; simpl; rewrite Hh; [by rewrite Hg|]. intros cur x. apply Hf.
Qed.

Lemma same_groups_skip_l (l : line) (a b : list line) :
  is_header l = false → field_of_line l = None →
  same_groups a b → same_groups (l :: a) b.
Proof.
  intros Hh Hn [Hg Hf]. split; simpl; rewrite Hh; [done|]. rewrite Hn.
  intros cur x. apply Hf.
Qed.

Lemma same_groups_skip_r (l : line) (a b : list line) :
  is_header l = false → field_of_line l = None →
  same_groups a b → same_groups a (l :: b).
Proof.
  intros Hh Hn [Hg Hf]. split; simpl; rewrite Hh; [done|]. rewrite Hn.
  intros cur x. apply Hf.
Qed.

Lemma same_groups_bind (fc fm : gmap string value → list line) (devs : list (gmap string value)) :
  Forall (λ dev, same_groups (fc dev) (fm dev)) devs →
  same_groups (devs ≫= fc) (devs ≫= fm).
Proof.
  induction 1 as [|d devs Hd _ IH]; [apply same_groups_nil|].
  rewrite !bind_cons. by apply same_groups_app.
Qed.

Ltac elem_solve :=
  first [ apply list_elem_of_here | apply list_elem_of_further; elem_solve ].
Ltac elem_equiv :=
  let H := fresh in
  split; intros H;
  repeat (apply elem_of_cons in H as [->|H]);
  first [ by apply elem_of_nil in H | elem_solve ].


Lemma printf_1 (t : string) (dev : gmap string value) (k : string) (v : value) :
  dev !! k = Some v → printf t dev [k] = ([fmt t [v]], Ok tt).
Proof. intros H. unfold printf, eval. simpl. by rewrite (dev_get_Some _ _ _ H). Qed.

Lemma printf_2 (t : string) (dev : gmap string value) (k1 k2 : string) (v1 v2 : value) :
  dev !! k1 = Some v1 → dev !! k2 = Some v2 →
  printf t dev [k1; k2] = ([fmt t [v1; v2]], Ok tt).
Proof.
  intros H1 H2. unfold printf, eval. simpl.
  by rewrite (dev_get_Some _ _ _ H1), (dev_get_Some _ _ _ H2).
Qed.

Lemma printf_3 (t : string) (dev : gmap string value) (k1 k2 k3 : string) (v1 v2 v3 : value) :
  dev !! k1 = Some v1 → dev !! k2 = Some v2 → dev !! k3 = Some v3 →
  printf t dev [k1; k2; k3] = ([fmt t [v1; v2; v3]], Ok tt).
Proof.
  intros H1 H2 H3. unfold printf, eval. simpl.
  by rewrite (dev_get_Some _ _ _ H1), (dev_get_Some _ _ _ H2), (dev_get_Some _ _ _ H3).
Qed.

Lemma printf_int_eq (t : string) (dev : gmap string value) (k : string) (id v : value) :
  dev !! "id" = Some id → dev !! k = Some v →
  printf_int t dev k
  = match py_int v with
    | Ok n => ([fmt t [id; VInt n]], Ok tt)
    | Raise e => ([], Raise e)
    end.
Proof.
  intros H1 H2. unfold printf_int, eval.
  rewrite (dev_get_Some _ _ _ H1), (dev_get_Some _ _ _ H2).
  cbn -[py_int fmt]. destruct (py_int v); reflexivity.
Qed.

Lemma if_present_and_present (k : string) (dev : gmap string value) (present : value)
    (body : emit unit) :
  dev !! "present" = Some present → truthy present = true →
  if_present_and k dev body = if has dev k then body else mret tt.
Proof.
  intros Hp Ht. unfold if_present_and. rewrite (dev_get_Some _ _ _ Hp).
  simpl. rewrite Ht. simpl. destruct (has dev k); [by destruct body|done].
Qed.

Lemma has_value_has (dev : gmap string value) (k : string) :
  dev !! k ≠ Some VNone → has_value dev k = has dev k.
Proof. unfold has_value, has. destruct (dev !! k) as [[]|]; done. Qed.

Ltac printf_eval dev :=
  repeat match goal with
  | |- context [printf ?t dev [?k]] =>
      erewrite (printf_1 t dev k) by eassumption
  | |- context [printf ?t dev [?k1; ?k2]] =>
      erewrite (printf_2 t dev k1 k2) by eassumption
  | |- context [printf ?t dev [?k1; ?k2; ?k3]] =>
      erewrite (printf_3 t dev k1 k2 k3) by eassumption
  | |- context [printf_int ?t dev ?k] =>
      erewrite (printf_int_eq t dev k) by eassumption
  end.

Ltac has_cases dev :=
  unfold has;
  repeat match goal with
  | |- context [match dev !! ?k with _ => _ end] =>
      let v := fresh "v" in let E := fresh "E" in
      destruct (dev !! k) as [v|] eqn:E
  end.

Ltac int_cases :=
  repeat match goal with
  | |- context [py_int ?v] => destruct (py_int v)
  end.

Ltac same_groups_compute :=
  first
    [ apply same_groups_nil
    | split; [vm_compute; reflexivity|];
      let g := fresh "g" in let x := fresh "x" in
      intros [g|] x; vm_compute; elem_equiv ].

Ltac per_device bodies :=
  let Hr := fresh "Hr" in let p := fresh "p" in let Hp := fresh "Hp" in
  let Ht := fresh "Ht" in let Htarget := fresh "Htarget" in
  intros Hr [(p & Hp & Ht) Htarget];
  unfold record, always_present in Hr;
  repeat match goal with
  | H : Forall _ (_ :: _) |- _ => apply Forall_cons in H as [[? ?] H]
  end;
  clear Hr;
  bodies;
  rewrite ?(if_present_and_present _ _ _ _ Hp Ht);
  rewrite ?(dev_get_Some _ _ _ Hp);
  rewrite ?(has_value_has _ _ Htarget).


Lemma for_dev_Ok (body : gmap string value → emit unit) (l : list (gmap string value))
    (out : list line) :
  for_dev body l = (out, Ok tt) →
  Forall (λ dev, (body dev).2 = Ok tt) l ∧ out = dev ← l; (body dev).1.
Proof.
  revert out. induction l as [|d l IH]; intros out H; cbn [for_dev] in H.
  - injection H as <-. by split.
  - apply emit_bind_Ok in H as (o1 & [] & o2 & H1 & H2 & ->).
    destruct (IH _ H2) as [Hall ->].
    split; [constructor; [by rewrite H1|done]|by rewrite bind_cons, H1].
Qed.

(** ** C3: the two emitters on connected devices *)

Lemma same_temperatures (dev : gmap string value) :
  record dev → reporting dev → (value_temperatures dev).2 = Ok tt →
  same_groups (config_temperatures dev).1 (value_temperatures dev).1.
Proof.
  per_device ltac:(unfold config_temperatures, value_temperatures).
  has_cases dev; printf_eval dev; intros _; same_groups_compute.
Qed.

Lemma same_humidity (dev : gmap string value) :
  record dev → reporting dev → (value_humidity dev).2 = Ok tt →
  same_groups (config_humidity dev).1 (value_humidity dev).1.
Proof.
  per_device ltac:(unfold config_humidity, value_humidity).
  has_cases dev; printf_eval dev; intros _; same_groups_compute.
Qed.

Lemma same_temperatures_target (dev : gmap string value) :
  record dev → reporting dev → (value_temperatures_target dev).2 = Ok tt →
  same_groups (config_temperatures_target dev).1 (value_temperatures_target dev).1.
Proof.
  per_device ltac:(unfold config_temperatures_target, value_temperatures_target, eval).
  cbn [mbind emit_bind]. rewrite Ht.
  has_cases dev; printf_eval dev; intros _; same_groups_compute.
Qed.

Lemma same_temperatures_detail (dev : gmap string value) :
  record dev → reporting dev → (value_temperatures_detail dev).2 = Ok tt →
  same_groups (config_temperatures_detail dev).1 (value_temperatures_detail dev).1.
Proof.
  per_device ltac:(unfold config_temperatures_detail, value_temperatures_detail, eval).
  cbn [mbind emit_bind]. rewrite Ht.
  has_cases dev; printf_eval dev; intros _; same_groups_compute.
Qed.

Lemma same_thermostat_modes (dev : gmap string value) :
  record dev → reporting dev → (value_thermostat_modes dev).2 = Ok tt →
  same_groups (config_thermostat_modes dev).1 (value_thermostat_modes dev).1.
Proof.
  per_device ltac:(unfold config_thermostat_modes, value_thermostat_modes).
  has_cases dev; printf_eval dev; int_cases; cbn; try (intros; discriminate);
    intros _; same_groups_compute.
Qed.

Lemma same_thermostat_modes_detail (dev : gmap string value) :
  record dev → reporting dev → (value_thermostat_modes_detail dev).2 = Ok tt →
  same_groups (config_thermostat_modes_detail dev).1 (value_thermostat_modes_detail dev).1.
Proof.
  per_device ltac:(unfold config_thermostat_modes_detail, value_thermostat_modes_detail).
  has_cases dev; printf_eval dev; int_cases; cbn; try (intros; discriminate);
    intros _; same_groups_compute.
Qed.

Lemma same_battery (dev : gmap string value) :
  record dev → reporting dev → (value_battery dev).2 = Ok tt →
  same_groups (config_battery dev).1 (value_battery dev).1.
Proof.
  per_device ltac:(unfold config_battery, value_battery).
  has_cases dev; printf_eval dev; intros _; same_groups_compute.
Qed.

Lemma same_batterylow (dev : gmap string value) :
  record dev → reporting dev → (value_batterylow dev).2 = Ok tt →
  same_groups (config_batterylow dev).1 (value_batterylow dev).1.
Proof.
  per_device ltac:(unfold config_batterylow, value_batterylow).
  has_cases dev; printf_eval dev; intros _; same_groups_compute.
Qed.

Lemma same_voltage (dev : gmap string value) :
  record dev → reporting dev → (value_voltage dev).2 = Ok tt →
  same_groups (config_voltage dev).1 (value_voltage dev).1.
Proof.
  per_device ltac:(unfold config_voltage, value_voltage).
  has_cases dev; printf_eval dev; intros _; same_groups_compute.
Qed.

Lemma same_smarthome_power (dev : gmap string value) :
  record dev → reporting dev → (value_smarthome_power dev).2 = Ok tt →
  same_groups (config_smarthome_power dev).1 (value_smarthome_power dev).1.
Proof.
  per_device ltac:(unfold config_smarthome_power, value_smarthome_power).
  has_cases dev; printf_eval dev; intros _; same_groups_compute.
Qed.

Lemma same_smarthome_powerAvg (dev : gmap string value) :
  record dev → reporting dev → (value_smarthome_powerAvg dev).2 = Ok tt →
  same_groups (config_smarthome_powerAvg dev).1 (value_smarthome_powerAvg dev).1.
Proof.
  per_device ltac:(unfold config_smarthome_powerAvg, value_smarthome_powerAvg).
  has_cases dev; [|intros _; apply same_groups_nil].
  printf_eval dev. rewrite (dev_get_Some _ _ _ E).
  match goal with H : dev !! "id" = Some _ |- _ => rewrite (dev_get_Some _ _ _ H) end.
  unfold eval. cbn -[py_mul py_int].
  destruct (py_mul v 3600000) as [product|]; cbn -[py_mul py_int]; [|done].
  destruct (py_int product); cbn -[py_mul py_int]; [|done].
  intros _. same_groups_compute.
Qed.

Lemma same_energy (dev : gmap string value) :
  record dev → reporting dev → (value_energy dev).2 = Ok tt →
  same_groups (config_energy dev).1 (value_energy dev).1.
Proof.
  per_device ltac:(unfold config_energy, value_energy).
  has_cases dev; printf_eval dev; intros _; same_groups_compute.
Qed.

Lemma same_smarthome_powerswitch (dev : gmap string value) :
  record dev → reporting dev → (value_smarthome_powerswitch dev).2 = Ok tt →
  same_groups (config_smarthome_powerswitch dev).1 (value_smarthome_powerswitch dev).1.
Proof.
  per_device ltac:(unfold config_smarthome_powerswitch, value_smarthome_powerswitch).
  has_cases dev; printf_eval dev; int_cases; cbn; try (intros; discriminate);
    intros _; same_groups_compute.
Qed.

(** A loop of the metadata emitter against the loop of the metric emitter
    for the same group. *)
Lemma same_groups_loops (cbody mbody : gmap string value → emit unit)
    (devs : list (gmap string value)) :
  (∀ dev, record dev → reporting dev → (mbody dev).2 = Ok tt →
     same_groups (cbody dev).1 (mbody dev).1) →
  Forall record devs → Forall reporting devs →
  Forall (λ dev, (mbody dev).2 = Ok tt) devs →
  same_groups (dev ← devs; (cbody dev).1) (dev ← devs; (mbody dev).1).
Proof.
  intros Hbody Hrec Hrep Hm. apply same_groups_bind.
  rewrite Forall_forall in Hrec. rewrite Forall_forall in Hrep.
  rewrite Forall_forall in Hm. apply Forall_forall. intros dev Hin.
  apply Hbody; auto.
Qed.

(** The fragments of [id_list] start with the metric name, so the
    [graph_order] and [cdef] lines are not metric lines. *)
Lemma id_list_shape (name k : string) (devs : list (gmap string value)) (ids : list line) :
  id_list name k devs = Ok ids →
  ids = [] ∨ ∃ id ids', ids = [Lit name; Arg id] :: ids'.
Proof.
  revert ids. induction devs as [|dev devs IH]; intros ids H; simpl in H.
  - injection H as <-. by left.
  - ok_inv H. destruct (truthy a && has dev k); [|by apply IH].
    ok_inv H. injection H as <-. right. eauto.
Qed.

Lemma field_of_line_join (s sep name : string) (ids : list line) :
  (ids = [] ∨ ∃ id ids', ids = [Lit name; Arg id] :: ids') →
  field_of_line (Lit s :: join sep ids) = None.
Proof. intros [->|(id & ids' & ->)]; [done|]. by destruct ids'. Qed.

Lemma field_of_line_cdef (s name : string) (ids : list line) :
  (ids = [] ∨ ∃ id ids', ids = [Lit name; Arg id] :: ids') →
  field_of_line (cdef s ids) = None.
Proof. intros [->|(id & ids' & ->)]; [done|]. by destruct ids'. Qed.

Ltac emit_inv H :=
  repeat
    (let o1 := fresh "o" in let a := fresh "a" in let o2 := fresh "o" in
     let H1 := fresh "Hm" in
     apply emit_bind_Ok in H as (o1 & a & o2 & H1 & H & ->);
     first [ progress unfold print in H1; injection H1 as <- <-
           | progress unfold eval in H1; injection H1 as <- H1
           | destruct a ]).

Ltac loops_inv :=
  repeat match goal with
  | H : for_dev _ _ = (_, Ok tt) |- _ => apply for_dev_Ok in H as [H ->]
  end.

Ltac same_loop :=
  apply same_groups_loops;
    [ first [ exact same_temperatures | exact same_humidity
            | exact same_temperatures_target | exact same_temperatures_detail
            | exact same_thermostat_modes | exact same_thermostat_modes_detail
            | exact same_battery | exact same_batterylow | exact same_voltage
            | exact same_smarthome_power | exact same_smarthome_powerAvg
            | exact same_energy | exact same_smarthome_powerswitch ]
    | assumption.. ].

Ltac same_chain :=
  repeat first
    [ apply same_groups_skip_l;
        [ reflexivity
        | first [ reflexivity
                | eapply field_of_line_join, id_list_shape; eassumption
                | eapply field_of_line_cdef, id_list_shape; eassumption ]
        | ]
    | apply same_groups_skip_r; [reflexivity|reflexivity|]
    | apply same_groups_header; [reflexivity|]
    | apply same_groups_app; [same_loop|] ].

(** Every group of the metadata output is a group of the value output, in
    the same order, with the same metric lines. *)
Lemma emitters_same_groups (host_name : option string) (devs : list (gmap string value))
    (oc om : list line) :
  Forall record devs → Forall reporting devs →
  print_config host_name devs = (oc, Ok tt) →
  print_smart_home_measurements devs = (om, Ok tt) →
  same_groups oc om.
Proof.
  intros Hrec Hrep Hc Hm.
  unfold print_smart_home_measurements in Hm. emit_inv Hm.
  unfold print_config in Hc. emit_inv Hc. loops_inv.
  cbn [app]. same_chain.
  rewrite <-(app_nil_r (devs ≫= λ dev, (value_smarthome_powerswitch dev).1)).
  apply same_groups_app; [same_loop|].
  destruct host_name as [h|]; [destruct (truthy (VStr h))|];
    injection Hc as <-;
    first [ apply same_groups_nil
          | apply same_groups_skip_l; [reflexivity|reflexivity|apply same_groups_nil] ].
Qed.

(** C3, as the code has it.  On a sequence of records that are all
    connected and none of which stores [None] as its target temperature,
    when both emitters run to the end, the metadata output and the value
    output have the same multigraph groups in the same order, and in each
    group the same device ids (indeed the same metrics). *)
Theorem emitters_agree_when_reporting (host_name : option string)
    (devs : list (gmap string value)) (oc om : list line) :
  Forall record devs → Forall reporting devs →
  print_config host_name devs = (oc, Ok tt) →
  print_smart_home_measurements devs = (om, Ok tt) →
  groups oc = groups om ∧ ∀ g id, declares oc g id ↔ declares om g id.
Proof.
  intros Hrec Hrep Hc Hm.
  destruct (emitters_same_groups _ _ _ _ Hrec Hrep Hc Hm) as [Hg Hf].
  split; [done|]. intros g id. unfold declares.
  split; intros [metric H]; exists metric; by apply Hf.
Qed.

(** ** C9: the battery-low group *)









(** * Further properties *)

(** ** The normalizer *)

Lemma SmartHomeThermostat_own_fields (skill : value) (d d' : gmap string value) :
  SmartHomeThermostat skill d = Ok d' →
  writes ["mode"; "summerActive"; "holidyActive"; "windowOpen"; "holidayActive";
          "targetTemperatureInDegC"; "refTemperatureInDegC"] d d'.
Proof.
  unfold SmartHomeThermostat. intros H. ok_inv H.
  apply copy_writes in Ha. apply new_state_writes in Ha0.
  apply old_state_writes in Ha1. apply copy_or_none_writes in Ha2.
  apply usedTempSensor_writes in H.
  writes_chain.
Qed.

Lemma SmartHomeMultimeter_own_fields (skill : value) (d d' : gmap string value) :
  SmartHomeMultimeter skill d = Ok d' →
  writes ["currentInAmp"; "powerInWatt"; "energyInKWH"; "voltageInVolt"] d d'.
Proof.
  unfold SmartHomeMultimeter. intros H. ok_inv H.
  apply copy_writes in Ha, Ha0, H.
  assert (writes ["energyInKWH"] a0 a1) as Ha1'.
  { revert Ha1. apply if_in_writes. intros p t t' Hp. ok_inv Hp.
    injection Hp as <-. apply writes_insert. key_in. }
  writes_chain.
Qed.

(** A skill stores into the fields of its own type only. *)
Lemma apply_skill_own_fields (skill : value) (d d' : gmap string value) :
  apply_skill skill d = Ok d' → writes (fields_of_type (attr skill "type")) d d'.
Proof.
  unfold apply_skill, attr, fields_of_type. intros H. ok_inv H. rewrite Ha.
  repeat match type of H with
  | (if ?c then _ else _) = _ => destruct c
  end;
  first
    [ exact (SmartHomeThermostat_own_fields _ _ _ H)
    | exact (SmartHomeMultimeter_own_fields _ _ _ H)
    | exact (copy_or_none_writes _ _ _ _ _ H)
    | injection H as <-; apply writes_refl
    | revert H; apply if_in_writes; intros state t t' [= <-];
      apply writes_insert; key_in ].
Qed.


(** X1. The five identity fields of a record are those of its device:
    whatever the skills carry, the record keeps the device's id, display
    name, model and identifier, and [present] is the boolean
    [masterConnectionState == "CONNECTED"]. *)
Theorem record_identity (device devID : value) (sd : gmap string value) :
  simplify_device device = Ok (devID, sd) →
  getitem device "id" = Ok devID
  ∧ sd !! "id" = Some devID
  ∧ sd !! "displayName" = Some (attr device "displayName")
  ∧ sd !! "present"
    = Some (VBool (eq_str (attr device "masterConnectionState") "CONNECTED"))
  ∧ sd !! "model" = Some (attr device "model")
  ∧ sd !! "identifier" = Some (attr device "actorIdentificationNumber").
Proof.
  intros (name & connected & model & identifier & Hn & Hc & Hid & Hm & Hi & H)%simplify_device_Ok.
  assert (writes skill_fields (base_fields devID name connected model identifier) sd) as W.
  { revert H. apply for_each_writes. intros skill t t'. apply apply_skill_writes. }
  unfold attr. rewrite Hn, Hc, Hm, Hi. split; [done|].
  repeat split; rewrite W by key_notin; unfold base_fields;
    repeat first [ by rewrite lookup_insert_eq | rewrite lookup_insert_ne by done ].
Qed.

(** X2. A record of the mapping has no key outside the five identity fields
    and the fifteen fields of the skill handlers. *)
Theorem record_keys (data : value) (m : devmap) :
  getSimplifiedDevices data = Ok m →
  Forall (λ item, ∀ k, is_Some (item.2 !! k) → k ∈ always_present ++ skill_fields) m.
Proof.
  apply (getSimplifiedDevices_records
           (λ sd, ∀ k, is_Some (sd !! k) → k ∈ always_present ++ skill_fields)).
  intros device devID sd H k [v Hk]. apply elem_of_app.
  destruct (decide (k ∈ always_present)) as [|H1]; [by left|right].
  destruct (decide (k ∈ skill_fields)) as [|H2]; [done|].
  rewrite (simplify_device_skill_fields _ _ _ _ H H1 H2) in Hk. done.
Qed.

Lemma devmap_set_fresh (m : devmap) (k : value) (kk : key) (d : gmap string value) :
  Forall (λ item, item.1.2 ≠ kk) m → devmap_set m k kk d = m ++ [(k, kk, d)].
Proof.
  induction 1 as [|[[k' kk'] d'] m Hx _ IH]; simpl; [done|].
  destruct (key_eqb kk' kk) eqn:E; [|by rewrite IH].
  by apply key_eqb_true in E as [? _].
Qed.

Lemma for_each_store_device_fresh (ds : list value) (m0 m : devmap) :
  for_each store_device ds m0 = Ok m →
  NoDup (id_key <$> ds) →
  (∀ device, device ∈ ds → Forall (λ item, Some item.1.2 ≠ id_key device) m0) →
  ∃ items, m = m0 ++ items
    ∧ Forall2 (λ device item,
                 simplify_device device = Ok (item.1.1, item.2)
                 ∧ key_of item.1.1 = Some item.1.2) ds items.
Proof.
  revert m0. induction ds as [|d ds IH]; intros m0 H Hnd Hfresh; simpl in H.
  - injection H as <-. exists []. by rewrite app_nil_r.
  - ok_inv H. apply store_device_Ok in Ha as (devID & sd & kk & Hd & Hk & Hid & ->).
    rewrite fmap_cons in Hnd. apply NoDup_cons in Hnd as [Hnotin Hnd].
    assert (id_key d = Some kk) as Hidk. { unfold id_key. by rewrite Hid. }
    rewrite devmap_set_fresh in H.
    2:{ eapply Forall_impl; [apply (Hfresh d), list_elem_of_here|].
        intros item Hne Heq. apply Hne. by rewrite Hidk, Heq. }
    destruct (IH _ H Hnd) as (items & -> & Hall).
    { intros device Hin. apply Forall_app. split.
      - by apply Hfresh, list_elem_of_further.
      - constructor; [|constructor]. simpl. intros Heq. apply Hnotin.
        rewrite Hidk, Heq. by apply list_elem_of_fmap_2. }
    exists ((devID, kk, sd) :: items). rewrite <-app_assoc. split; [done|].
    by constructor.
Qed.

(** X3. When the ids of the devices are pairwise different, the mapping has
    one item per device, in the order of the answer: each item holds the id
    and the record of the device at its position. *)
Theorem distinct_ids_keep_order (data : value) (m : devmap) :
  getSimplifiedDevices data = Ok m →
  NoDup (id_key <$> devices_of data) →
  Forall2 (λ device item,
             simplify_device device = Ok (item.1.1, item.2)
             ∧ key_of item.1.1 = Some item.1.2) (devices_of data) m.
Proof.
  intros H Hnd. unfold getSimplifiedDevices in H. ok_inv H.
  unfold devices_of, attr, iterable in *. rewrite Ha, Ha0, Ha1 in *.
  destruct (for_each_store_device_fresh _ _ _ H Hnd) as (items & -> & Hall); [|done].
  intros device _. constructor.
Qed.

Lemma apply_unit_Raise (unit : value) (k : string) (e : exn) (d : gmap string value) :
  k ∈ unit_attributes → getitem unit k = Raise e → ∃ e', apply_unit unit d = Raise e'.
Proof.
  intros Hk He. unfold apply_unit.
  destruct (getitem unit "displayName") eqn:H1; simpl; [|eauto].
  destruct (getitem unit "skills") eqn:H2; simpl; [|eauto].
  destruct (getitem unit "type") eqn:H3; simpl; [|eauto].
  destruct (getitem unit "id") eqn:H4; simpl; [|eauto].
  apply list_elem_of_In in Hk. simpl in Hk.
  repeat destruct Hk as [<-|Hk]; congruence || done.
Qed.

Lemma apply_unit_skill_Raise (unit skill : value) (d : gmap string value) :
  skill ∈ iterable (attr unit "skills") →
  (∀ t, ∃ e, apply_skill skill t = Raise e) →
  ∃ e', apply_unit unit d = Raise e'.
Proof.
  intros Hin He. unfold apply_unit, attr, iterable in Hin |- *.
  destruct (getitem unit "displayName"); simpl; [|eauto].
  destruct (getitem unit "skills") as [skills|]; simpl; [|by apply elem_of_nil in Hin].
  destruct (getitem unit "type"); simpl; [|eauto].
  destruct (getitem unit "id"); simpl; [|eauto].
  destruct (iter skills) as [l|]; simpl; [|eauto].
  by apply for_each_Raise with skill.
Qed.

Lemma simplify_device_unit_Raise (device unit : value) :
  unit ∈ iterable (attr device "units") →
  (∀ d, ∃ e, apply_unit unit d = Raise e) →
  ∃ e, simplify_device device = Raise e.
Proof.
  intros Hin Hunit. unfold simplify_device, attr, iterable in Hin |- *.
  destruct (getitem device "displayName"); simpl; [|eauto].
  destruct (getitem device "category"); simpl; [|eauto].
  destruct (getitem device "type"); simpl; [|eauto].
  destruct (getitem device "units") as [units|]; simpl; [|by apply elem_of_nil in Hin].
  destruct (getitem device "masterConnectionState"); simpl; [|eauto].
  destruct (getitem device "id"); simpl; [|eauto].
  destruct (getitem device "model"); simpl; [|eauto].
  destruct (getitem device "actorIdentificationNumber"); simpl; [|eauto].
  destruct (iter units) as [l|]; simpl; [|eauto].
  destruct (for_each_Raise apply_unit l unit
              (base_fields a3 a a2 a4 a5) Hin Hunit) as [e ->].
  simpl. eauto.
Qed.

Lemma store_device_skill_Raise (device skill : value) (m : devmap) :
  skill ∈ skills_of device →
  (∀ t, ∃ e, apply_skill skill t = Raise e) →
  ∃ e, store_device device m = Raise e.
Proof.
  intros Hs He. unfold skills_of in Hs. apply list_elem_of_bind in Hs as (unit & Hs & Hu).
  unfold store_device.
  destruct (simplify_device_unit_Raise device unit Hu) as [e' ->]; [|simpl; eauto].
  intros d. by apply apply_unit_skill_Raise with skill.
Qed.

Lemma getSimplifiedDevices_device_Raise (data device : value) :
  device ∈ devices_of data →
  (∀ m, ∃ e, store_device device m = Raise e) →
  ∃ e, getSimplifiedDevices data = Raise e.
Proof.
  intros Hin Hdev. unfold getSimplifiedDevices, devices_of, attr, iterable in Hin |- *.
  destruct (getitem data "data") as [inner|]; simpl; [|eauto].
  destruct (getitem inner "devices") as [devices|]; simpl; [|eauto].
  destruct (iter devices) as [l|]; simpl; [|eauto].
  by apply for_each_Raise with device.
Qed.

(** X4. No partial result: the normalizer raises, and returns no mapping,
    as soon as one device of the answer has a unit that cannot be read for
    one of its four attributes, a skill that cannot be read for its type, or
    an id that cannot be a dict key (a list or a dict). *)
Theorem malformed_device_aborts (data device : value) :
  device ∈ devices_of data →
  (∃ unit k e, unit ∈ iterable (attr device "units") ∧ k ∈ unit_attributes
               ∧ getitem unit k = Raise e)
  ∨ (∃ skill e, skill ∈ skills_of device ∧ getitem skill "type" = Raise e)
  ∨ id_key device = None →
  ∃ e, getSimplifiedDevices data = Raise e.
Proof.
  intros Hin Hbad. apply getSimplifiedDevices_device_Raise with device; [done|].
  intros m. unfold store_device.
  destruct Hbad as [(unit & k & e & Hu & Hk & He)|[(skill & e & Hs & He)|Hid]].
  - destruct (simplify_device_unit_Raise device unit Hu) as [e' ->]; [|simpl; eauto].
    intros d. by apply apply_unit_Raise with k e.
  - fold (store_device device m). apply store_device_skill_Raise with skill; [done|].
    intros t. exists e. unfold apply_skill. by rewrite He.
  - destruct (simplify_device device) as [[devID sd]|e] eqn:E; simpl; [|eauto].
    apply simplify_device_Ok in E as (? & ? & ? & ? & _ & _ & E & _).
    unfold id_key, attr in Hid. rewrite E in Hid. unfold setitem. rewrite Hid. eauto.
Qed.

Lemma copy_dict (k : string) (d : list (string * value)) (field : string)
    (sd : gmap string value) :
  ∃ sd', copy k (VDict d) field sd = Ok sd'.
Proof.
  unfold copy. destruct (dict_get k d) eqn:E.
  - rewrite (if_in_present _ _ _ _ _ E). eauto.
  - rewrite (if_in_absent _ _ _ _ E). eauto.
Qed.

Lemma copy_or_none_dict (k : string) (d : list (string * value)) (field : string)
    (sd : gmap string value) :
  copy_or_none k (VDict d) field sd = Ok (<[field := default VNone (dict_get k d)]> sd).
Proof.
  destruct (dict_get k d) eqn:E; [|by apply copy_or_none_absent].
  unfold copy_or_none. simpl. rewrite E. by rewrite bool_decide_true by eauto.
Qed.

Lemma SmartHomeMultimeter_Raise (d : list (string * value)) (p : value) (e : exn)
    (sd : gmap string value) :
  dict_get "powerPerHour" d = Some p → py_float p = Raise e →
  SmartHomeMultimeter (VDict d) sd = Raise e.
Proof.
  intros Hp He. unfold SmartHomeMultimeter.
  destruct (copy_dict "electricCurrentInAmpere" d "currentInAmp" sd) as [sd1 ->]. simpl.
  destruct (copy_dict "powerConsumptionInWatt" d "powerInWatt" sd1) as [sd2 ->]. simpl.
  rewrite (if_in_present _ _ _ _ _ Hp). by rewrite He.
Qed.

Lemma SmartHomeThermostat_Raise (d : list (string * value)) (sensor : value) (e : exn)
    (sd : gmap string value) :
  dict_get "usedTempSensor" d = Some sensor →
  getitem sensor "skills" ≫= iter = Raise e →
  ∃ e', SmartHomeThermostat (VDict d) sd = Raise e'.
Proof.
  intros Hs He. unfold SmartHomeThermostat.
  destruct (copy_dict "mode" d "mode" sd) as [sd1 ->]. simpl.
  destruct (new_state (VDict d) sd1) as [sd2|]; simpl; [|eauto].
  destruct (old_state (VDict d) sd2) as [sd3|]; simpl; [|eauto].
  rewrite copy_or_none_dict. simpl.
  unfold usedTempSensor. rewrite (if_in_present _ _ _ _ _ Hs).
  destruct (getitem sensor "skills") as [refSkills|]; simpl in He |- *; [|eauto].
  rewrite He. simpl. eauto.
Qed.

(** X5. Optional fields are only optional by their presence: a multimeter
    skill whose [powerPerHour] is no number ([float] raises on it), or a
    thermostat skill whose [usedTempSensor] has no iterable [skills], makes
    the normalizer raise for the whole answer. *)
Theorem unreadable_skill_aborts (data device : value) (d : list (string * value)) :
  device ∈ devices_of data → VDict d ∈ skills_of device →
  (dict_get "type" d = Some (VStr "SmartHomeMultimeter")
   ∧ ∃ p e, dict_get "powerPerHour" d = Some p ∧ py_float p = Raise e)
  ∨ (dict_get "type" d = Some (VStr "SmartHomeThermostat")
     ∧ ∃ sensor e, dict_get "usedTempSensor" d = Some sensor
                   ∧ getitem sensor "skills" ≫= iter = Raise e) →
  ∃ e, getSimplifiedDevices data = Raise e.
Proof.
  intros Hin Hs Hbad. apply getSimplifiedDevices_device_Raise with device; [done|].
  intros m. apply store_device_skill_Raise with (VDict d); [done|].
  intros t. unfold apply_skill. simpl.
  destruct Hbad as [[-> (p & e & Hp & He)]|[-> (sensor & e & Hp & He)]]; simpl.
  - exists e. by apply SmartHomeMultimeter_Raise with p.
  - by apply SmartHomeThermostat_Raise with sensor e.
Qed.

Lemma thermostat_last (device devID : value) (sd : gmap string value)
    (before after : list value) (skill : value) :
  simplify_device device = Ok (devID, sd) →
  skills_of device = before ++ skill :: after →
  eq_str (attr skill "type") "SmartHomeThermostat" = true →
  Forall (λ skill, eq_str (attr skill "type") "SmartHomeThermostat" = false) after →
  ∃ t t', SmartHomeThermostat skill t = Ok t'
    ∧ writes ["currentTemperatureInDegC"; "currentHumidityInPct";
              "batteryChargeLevelInPct"; "currentInAmp"; "powerInWatt";
              "energyInKWH"; "voltageInVolt"; "powerSwitchOn"] t' sd.
Proof.
  intros (name & connected & model & identifier & _ & _ & _ & _ & _ & H)%simplify_device_Ok
    Hskills Htype Hafter.
  rewrite Hskills, for_each_app in H. ok_inv H. simpl in H. ok_inv H.
  apply apply_skill_thermostat in Ha0; [|done].
  exists a, a0. split; [done|].
  revert H. apply for_each_invariant; [|apply writes_refl].
  intros s t t' Hin Ht Hstep. eapply writes_trans; [exact Ht|].
  eapply apply_skill_other_writes, Hstep.
  rewrite Forall_forall in Hafter. by apply Hafter.
Qed.

(** X6. The newer state reporting alone: when the last thermostat skill of
    a device has [state.current] and neither [summerActive] nor
    [temperatureDropDetection], the record's three flags are those of
    [state.current], each 0 or 1, the holiday one under ["holidyActive"];
    at most one of the three is 1. *)
Theorem current_state_flags (device devID : value) (sd : gmap string value)
    (before after : list value) (d state : list (string * value)) (current : value) :
  simplify_device device = Ok (devID, sd) →
  skills_of device = before ++ VDict d :: after →
  eq_str (attr (VDict d) "type") "SmartHomeThermostat" = true →
  Forall (λ skill, eq_str (attr skill "type") "SmartHomeThermostat" = false) after →
  dict_get "state" d = Some (VDict state) →
  dict_get "current" state = Some current →
  dict_get "summerActive" d = None →
  dict_get "temperatureDropDetection" d = None →
  sd !! "summerActive" = Some (flag (eq_str current "SUMMER"))
  ∧ sd !! "holidyActive" = Some (flag (eq_str current "HOLIDAY"))
  ∧ sd !! "windowOpen" = Some (flag (eq_str current "WINDOW_OPEN"))
  ∧ ∀ f g, f ∈ ["summerActive"; "holidyActive"; "windowOpen"] →
           g ∈ ["summerActive"; "holidyActive"; "windowOpen"] →
           sd !! f = Some (VInt 1) → sd !! g = Some (VInt 1) → f = g.
Proof.
  intros H Hskills Htype Hafter Hstate Hcurrent Hsummer Htdd.
  destruct (thermostat_last _ _ _ _ _ _ H Hskills Htype Hafter) as (t & t' & Ht & W).
  unfold SmartHomeThermostat in Ht.
  apply bind_Ok in Ht as (s1 & _ & Ht). apply bind_Ok in Ht as (s2 & H2 & Ht).
  apply bind_Ok in Ht as (s3 & H3 & Ht). apply bind_Ok in Ht as (s4 & H4 & Ht).
  rewrite (new_state_current _ _ _ _ Hstate Hcurrent) in H2. injection H2 as <-.
  unfold old_state, copy in H3.
  rewrite (if_in_absent _ _ _ _ Hsummer) in H3. simpl in H3.
  apply bind_Ok in H3 as (s5 & H5 & H3).
  rewrite (if_in_absent _ _ _ _ Htdd) in H3. injection H3 as <-.
  assert (writes ["holidayActive"]
            (<["windowOpen" := flag (eq_str current "WINDOW_OPEN")]>
            (<["holidyActive" := flag (eq_str current "HOLIDAY")]>
            (<["summerActive" := flag (eq_str current "SUMMER")]> s1))) s5) as W1.
  { revert H5. apply if_in_writes. intros v u u' [= <-]. apply writes_insert. key_in. }
  apply copy_or_none_writes in H4. apply usedTempSensor_writes in Ht.
  assert (sd !! "summerActive" = Some (flag (eq_str current "SUMMER"))) as E1.
  { rewrite W, Ht, H4, W1 by key_notin.
    repeat first [ by rewrite lookup_insert_eq | rewrite lookup_insert_ne by done ]. }
  assert (sd !! "holidyActive" = Some (flag (eq_str current "HOLIDAY"))) as E2.
  { rewrite W, Ht, H4, W1 by key_notin.
    repeat first [ by rewrite lookup_insert_eq | rewrite lookup_insert_ne by done ]. }
  assert (sd !! "windowOpen" = Some (flag (eq_str current "WINDOW_OPEN"))) as E3.
  { rewrite W, Ht, H4, W1 by key_notin.
    repeat first [ by rewrite lookup_insert_eq | rewrite lookup_insert_ne by done ]. }
  repeat split; [done..|].
  intros f g Hf Hg. apply list_elem_of_In in Hf, Hg. simpl in Hf, Hg.
  destruct current as [| | | |s| |]; simpl in E1, E2, E3;
    try (repeat destruct Hf as [<-|Hf]; try done;
         rewrite ?E1, ?E2, ?E3; discriminate).
  destruct (String.eqb_spec s "SUMMER") as [->|_];
    [|destruct (String.eqb_spec s "HOLIDAY") as [->|_]];
    simpl in E1, E2, E3;
    repeat destruct Hf as [<-|Hf]; try done;
    repeat destruct Hg as [<-|Hg]; try done;
    rewrite ?E1, ?E2, ?E3; try discriminate; try done.
Qed.

Lemma old_state_no_holiday (skill : value) (d d' : gmap string value) :
  contains "holidayActive" skill = Ok false →
  old_state skill d = Ok d' → writes ["summerActive"; "windowOpen"] d d'.
Proof.
  intros Hc H. unfold old_state in H.
  apply bind_Ok in H as (s1 & H1 & H). apply bind_Ok in H as (s2 & H2 & H).
  apply copy_writes in H1.
  apply copy_Ok in H2 as [[_ ->]|(v & Hc' & _)]; [|congruence].
  assert (writes ["windowOpen"] s1 d') as W.
  { revert H. apply if_in_writes. intros tdd t t'. apply copy_writes. }
  writes_chain.
Qed.

(** X7. The holiday flag that the emitters read, ["holidayActive"], comes
    from the legacy field only: when no thermostat skill of a device carries
    a [holidayActive] field, its record has no ["holidayActive"], whatever
    [state.current] says. *)
Theorem holiday_needs_legacy_field (device devID : value) (sd : gmap string value) :
  simplify_device device = Ok (devID, sd) →
  Forall (λ skill, eq_str (attr skill "type") "SmartHomeThermostat" = true →
                   contains "holidayActive" skill = Ok false) (skills_of device) →
  sd !! "holidayActive" = None.
Proof.
  intros (name & connected & model & identifier & _ & _ & _ & _ & _ & H)%simplify_device_Ok
    Hall.
  revert H. apply (for_each_invariant (λ t, t !! "holidayActive" = None)).
  2:{ unfold base_fields. by repeat rewrite lookup_insert_ne by done. }
  intros skill t t' Hin Ht Hstep. rewrite Forall_forall in Hall.
  destruct (eq_str (attr skill "type") "SmartHomeThermostat") eqn:E.
  - apply apply_skill_thermostat in Hstep; [|done].
    unfold SmartHomeThermostat in Hstep.
    apply bind_Ok in Hstep as (s1 & H1 & Hstep). apply bind_Ok in Hstep as (s2 & H2 & Hstep).
    apply bind_Ok in Hstep as (s3 & H3 & Hstep). apply bind_Ok in Hstep as (s4 & H4 & Hstep).
    apply copy_writes in H1. apply new_state_writes in H2.
    apply old_state_no_holiday in H3; [|by apply Hall].
    apply copy_or_none_writes in H4. apply usedTempSensor_writes in Hstep.
    by rewrite Hstep, H4, H3, H2, H1 by key_notin.
  - apply apply_skill_other_writes in Hstep; [|done].
    by rewrite Hstep by key_notin.
Qed.

Lemma fields_of_type_reading (ty : value) (r : string * string * string) :
  r ∈ readings → eq_str ty r.1.1 = false → r.2 ∉ fields_of_type ty.
Proof.
  intros Hr%list_elem_of_In Hty. simpl in Hr.
  unfold fields_of_type.
  repeat destruct Hr as [<-|Hr]; try done; simpl in Hty |- *; rewrite ?Hty;
    repeat match goal with
    | |- _ ∉ (if ?c then _ else _) => destruct c
    end; key_notin.
Qed.

Lemma apply_skill_reading (d : list (string * value)) (r : string * string * string)
    (t t' : gmap string value) :
  r ∈ readings → eq_str (attr (VDict d) "type") r.1.1 = true →
  apply_skill (VDict d) t = Ok t' →
  t' !! r.2 = Some (default VNone (dict_get r.1.2 d)).
Proof.
  intros Hr%list_elem_of_In Hty H. simpl in Hr.
  unfold apply_skill, attr in Hty, H.
  destruct (getitem (VDict d) "type") as [ty|]; [|done]. simpl in H.
  destruct ty as [| | | |s| |]; try done. simpl in Hty.
  repeat destruct Hr as [<-|Hr]; try done; simpl in Hty;
    apply String.eqb_eq in Hty as ->; simpl in H |- *.
  - unfold SmartHomeThermostat in H.
    apply bind_Ok in H as (s1 & _ & H). apply bind_Ok in H as (s2 & _ & H).
    apply bind_Ok in H as (s3 & _ & H). apply bind_Ok in H as (s4 & H4 & H).
    rewrite copy_or_none_dict in H4. injection H4 as <-.
    apply usedTempSensor_writes in H. rewrite H by key_notin. apply lookup_insert_eq.
  - rewrite copy_or_none_dict in H. injection H as <-. apply lookup_insert_eq.
  - rewrite copy_or_none_dict in H. injection H as <-. apply lookup_insert_eq.
  - rewrite copy_or_none_dict in H. injection H as <-. apply lookup_insert_eq.
Qed.

(** The skill that decides a field: the skills after it do not store into
    the field, so the record has what the skill left. *)
Lemma deciding_skill (device devID : value) (sd : gmap string value)
    (before after : list value) (skill : value) (k : string) :
  simplify_device device = Ok (devID, sd) →
  skills_of device = before ++ skill :: after →
  Forall (λ later, k ∉ fields_of_type (attr later "type")) after →
  ∃ t t', apply_skill skill t = Ok t' ∧ sd !! k = t' !! k.
Proof.
  intros (name & connected & model & identifier & _ & _ & _ & _ & _ & H)%simplify_device_Ok
    Hskills Hafter.
  rewrite Hskills, for_each_app in H.
  apply bind_Ok in H as (s1 & _ & H). simpl in H. apply bind_Ok in H as (s2 & H2 & H).
  exists s1, s2. split; [done|].
  revert H. apply (for_each_invariant (λ t, t !! k = s2 !! k)); [|done].
  intros later t t' Hin Ht Hstep. apply apply_skill_own_fields in Hstep.
  rewrite Hstep; [done|]. rewrite Forall_forall in Hafter. by apply Hafter.
Qed.

(** X8. The four readings (target temperature, temperature, humidity,
    battery charge): the record holds what the device's last skill of the
    reading's type carries, and [None] when that skill lacks the reading,
    also when an earlier skill of the type had one. *)
Theorem last_skill_decides_reading (device devID : value) (sd : gmap string value)
    (before after : list value) (d : list (string * value))
    (skillType k field : string) :
  simplify_device device = Ok (devID, sd) →
  (skillType, k, field) ∈ readings →
  skills_of device = before ++ VDict d :: after →
  eq_str (attr (VDict d) "type") skillType = true →
  Forall (λ skill, eq_str (attr skill "type") skillType = false) after →
  sd !! field = Some (default VNone (dict_get k d)).
Proof.
  intros H Hr Hskills Htype Hafter.
  destruct (deciding_skill _ _ _ _ _ _ field H Hskills) as (t & t' & Hstep & ->).
  { eapply Forall_impl; [exact Hafter|]. intros later Hl.
    by apply (fields_of_type_reading _ _ Hr). }
  apply (apply_skill_reading _ _ _ _ Hr Htype Hstep).
Qed.

Lemma copy_dict_eq (k : string) (d : list (string * value)) (field : string)
    (sd : gmap string value) :
  copy k (VDict d) field sd
  = Ok (match dict_get k d with Some v => <[field := v]> sd | None => sd end).
Proof.
  unfold copy. destruct (dict_get k d) eqn:E.
  - by rewrite (if_in_present _ _ _ _ _ E).
  - by rewrite (if_in_absent _ _ _ _ E).
Qed.

Lemma for_each_copy_last (refSkills : list (list (string * value))) (sd : gmap string value) :
  for_each (λ refSkill simpleDev,
      copy "currentInCelsius" refSkill "refTemperatureInDegC" simpleDev)
    (VDict <$> refSkills) sd
  = Ok (match last_reading refSkills with
        | Some v => <["refTemperatureInDegC" := v]> sd
        | None => sd
        end).
Proof.
  revert sd. induction refSkills as [|r rs IH]; intros sd; [done|].
  rewrite fmap_cons. cbn [for_each]. rewrite copy_dict_eq.
  unfold mbind, result_bind. rewrite IH. f_equal.
  unfold last_reading. cbn [omap list_omap].
  destruct (dict_get "currentInCelsius" r) as [v|] eqn:E; [|done].
  destruct (omap (dict_get "currentInCelsius") rs) as [|v' l] eqn:El; [done|].
  change (last (v :: v' :: l)) with (last (v' :: l)).
  destruct (last (v' :: l)) eqn:E'; [by rewrite insert_insert_eq|].
  by apply last_None in E'.
Qed.

(** X9. The reference temperature of a thermostat skill is the reading of
    the last skill of its [usedTempSensor] that has one; when none has, the
    field is left as it was.  A [usedTempSensor] without [skills] raises
    [KeyError]. *)
Theorem reference_temperature (d : list (string * value)) (sd : gmap string value) :
  (∀ sensor refSkills, dict_get "usedTempSensor" d = Some sensor →
     getitem sensor "skills" = Ok (VList (VDict <$> refSkills)) →
     usedTempSensor (VDict d) sd
     = Ok (match last_reading refSkills with
           | Some v => <["refTemperatureInDegC" := v]> sd
           | None => sd
           end))
  ∧ (∀ sensor, dict_get "usedTempSensor" d = Some (VDict sensor) →
       dict_get "skills" sensor = None →
       usedTempSensor (VDict d) sd = Raise KeyError)
  ∧ (dict_get "usedTempSensor" d = None → usedTempSensor (VDict d) sd = Ok sd).
Proof.
  unfold usedTempSensor. split; [|split].
  - intros sensor refSkills Hs Hr. rewrite (if_in_present _ _ _ _ _ Hs), Hr. simpl.
    apply for_each_copy_last.
  - intros sensor Hs Hr. rewrite (if_in_present _ _ _ _ _ Hs). simpl. by rewrite Hr.
  - intros Hs. by rewrite (if_in_absent _ _ _ _ Hs).
Qed.

(** ** The sorter *)

Lemma ltb_irrefl (s : string) : String.ltb s s = false.
Proof.
  unfold String.ltb. induction s as [|a s IH]; [done|].
  simpl. unfold Ascii.compare. by rewrite N.compare_refl.
Qed.

Lemma insert_by_key_stable {A : Type} (s : string) (x : value * A) (l l' : list (value * A)) :
  insert_by_key x l = Ok l' →
  filter (λ y, eq_str y.1 s = true) l' = filter (λ y, eq_str y.1 s = true) (x :: l).
Proof.
  revert l'. induction l as [|y l IH]; intros l' H; simpl in H.
  - by injection H as <-.
  - apply bind_Ok in H as (b & Hb & H).
    apply key_lt_Ok in Hb as (u & v & Hy & Hx & ->).
    destruct (String.ltb u v) eqn:Hlt.
    + apply bind_Ok in H as (l'' & Hl & H). injection H as <-.
      rewrite filter_cons, (IH _ Hl), !filter_cons.
      rewrite Hy, Hx. simpl.
      destruct (decide ((u =? s)%string = true)) as [Hu|Hu];
        destruct (decide ((v =? s)%string = true)) as [Hv|Hv]; try done.
      apply String.eqb_eq in Hu, Hv. subst u v.
      by rewrite ltb_irrefl in Hlt.
    + by injection H as <-.
Qed.

Lemma sort_by_key_stable {A : Type} (s : string) (l l' : list (value * A)) :
  sort_by_key l = Ok l' →
  filter (λ y, eq_str y.1 s = true) l' = filter (λ y, eq_str y.1 s = true) l.
Proof.
  revert l'. induction l as [|x l IH]; intros l' H; simpl in H.
  - by injection H as <-.
  - apply bind_Ok in H as (l'' & Hl & H).
    rewrite (insert_by_key_stable _ _ _ _ H), !filter_cons. by rewrite (IH _ Hl).
Qed.

Lemma filter_keyed (s : string) (keyed : list (value * gmap string value)) :
  Forall (λ y, y.2 !! "displayName" = Some y.1) keyed →
  filter (λ dev, has_name s dev = true) (keyed.*2)
  = (filter (λ y, eq_str y.1 s = true) keyed).*2.
Proof.
  induction 1 as [|y l Hy _ IH]; [done|].
  assert (has_name s y.2 = eq_str y.1 s) as E by (unfold has_name; by rewrite Hy).
  rewrite fmap_cons, !filter_cons, IH.
  destruct (decide (has_name s y.2 = true)) as [H1|H1];
    destruct (decide (eq_str y.1 s = true)) as [H2|H2]; try done; congruence.
Qed.

(** X10. The sorter is stable: the devices of one display name stand in the
    sorted list in the order they have in the mapping. *)
Theorem same_name_keeps_order (l l' : list (gmap string value)) (s : string) :
  sorted_by_displayName l = Ok l' →
  filter (λ dev, has_name s dev = true) l' = filter (λ dev, has_name s dev = true) l.
Proof.
  unfold sorted_by_displayName. intros H.
  apply bind_Ok in H as (keyed & Hk & H). apply bind_Ok in H as (sorted & Hs & H).
  injection H as <-.
  apply decorate_Ok in Hk as (keyed' & -> & <- & Hall). simpl in Hs, Hall |- *.
  pose proof (sort_by_key_Ok _ _ Hs) as [Hperm _].
  rewrite !filter_keyed; [|done|by rewrite <-Hperm].
  by rewrite (sort_by_key_stable _ _ _ Hs).
Qed.

(** ** The emitters *)





























Lemma fails_bind_l {A B : Type} (m : emit A) (f : A → emit B) :
  fails m → fails (m ≫= f).
Proof. destruct m as [o [a|e]]; intros [e' H]; simpl in H; [done|]. by exists e. Qed.

Lemma fails_bind_r {A B : Type} (m : emit A) (f : A → emit B) :
  (∀ a, fails (f a)) → fails (m ≫= f).
Proof.
  destruct m as [o [a|e]]; intros Hf; [|by exists e].
  destruct (Hf a) as [e He]. exists e.
  unfold mbind, emit_bind. destruct (f a) as [o' r]. exact He.
Qed.

Lemma fails_for_dev (body : gmap string value → emit unit) (l : list (gmap string value))
    (dev : gmap string value) :
  dev ∈ l → fails (body dev) → fails (for_dev body l).
Proof.
  intros Hin Hb. induction l as [|d l IH]; [by apply elem_of_nil in Hin|].
  cbn [for_dev]. apply elem_of_cons in Hin as [<-|Hin].
  - by apply fails_bind_l.
  - apply fails_bind_r. intros _. by apply IH.
Qed.

Lemma eval_Ok_bind {A B : Type} (a : A) (f : A → emit B) : eval (Ok a) ≫= f = f a.
Proof. unfold eval, mbind, emit_bind. by destruct (f a). Qed.

Lemma fails_printf_int (t : string) (dev : gmap string value) (k : string) (v : value)
    (e : exn) :
  dev !! k = Some v → py_int v = Raise e → fails (printf_int t dev k).
Proof.
  intros Hk He. unfold printf_int. apply fails_bind_r. intros id.
  rewrite (dev_get_Some _ _ _ Hk), eval_Ok_bind.
  apply fails_bind_l. exists e. exact He.
Qed.

Lemma fails_modes_detail (dev : gmap string value) (k : string) (v : value) (e : exn) :
  k ∈ ["windowOpen"; "summerActive"; "holidayActive"] →
  dev !! k = Some v → py_int v = Raise e →
  fails (value_thermostat_modes_detail dev).
Proof.
  intros Hk%list_elem_of_In Hv He. simpl in Hk.
  assert (has dev k = true) as Hhas by (unfold has; by rewrite Hv).
  unfold value_thermostat_modes_detail.
  repeat destruct Hk as [<-|Hk]; try done; rewrite Hhas, ?orb_true_r; cbn [orb];
    repeat first
      [ apply fails_bind_l; solve [by apply fails_printf_int with v e]
      | by apply fails_printf_int with v e
      | apply fails_bind_r; intros ? ].
Qed.

(** X13. A mode flag that [int] rejects stops the metric emitter: when a
    record, of a connected device or not, stores under ["windowOpen"],
    ["summerActive"] or ["holidayActive"] a value on which [int] raises,
    [print_smart_home_measurements] raises. *)
Theorem unconvertible_flag_stops_measurements (devs : list (gmap string value))
    (dev : gmap string value) (k : string) (v : value) (e : exn) :
  dev ∈ devs → k ∈ ["windowOpen"; "summerActive"; "holidayActive"] →
  dev !! k = Some v → py_int v = Raise e →
  ∃ out e', print_smart_home_measurements devs = (out, Raise e').
Proof.
  intros Hin Hk Hv He.
  assert (fails (print_smart_home_measurements devs)) as [e' H].
  { unfold print_smart_home_measurements.
    repeat first
      [ apply fails_bind_l;
        solve [apply fails_for_dev with dev; [done|by apply fails_modes_detail with k v e]]
      | apply fails_bind_r; intros ? ]. }
  destruct (print_smart_home_measurements devs) as [out r]. simpl in H. subst r.
  by exists out, e'.
Qed.


Lemma dev_get_same_shape (a b : gmap string value) (k : string) :
  same_shape a b → k ∈ always_present → dev_get a k = dev_get b k.
Proof. intros [_ H] Hk. unfold dev_get. by rewrite (H k Hk). Qed.

Lemma printf_args_same_shape (a b : gmap string value) (ks : list string)
    (acc : list value) :
  same_shape a b → ks ⊆ always_present →
  for_each (λ k acc, v ← dev_get a k; Ok (acc ++ [v])) ks acc
  = for_each (λ k acc, v ← dev_get b k; Ok (acc ++ [v])) ks acc.
Proof.
  intros H. revert acc. induction ks as [|k ks IH]; intros acc Hks; [done|].
  cbn [for_each].
  rewrite (dev_get_same_shape a b k H) by (apply Hks, list_elem_of_here).
  destruct (dev_get b k); [|done]. cbn. apply IH.
  intros k' Hk'. by apply Hks, list_elem_of_further.
Qed.

Lemma printf_same_shape (t : string) (a b : gmap string value) (ks : list string) :
  same_shape a b → ks ⊆ always_present → printf t a ks = printf t b ks.
Proof.
  intros H Hks. unfold printf. by rewrite (printf_args_same_shape a b ks [] H Hks).
Qed.

Lemma present_same_shape (a b : gmap string value) :
  same_shape a b → dev_get a "present" = dev_get b "present".
Proof. intros H. apply dev_get_same_shape; [done|key_in]. Qed.

Ltac shape_steps a b H :=
  unfold if_present_and;
  rewrite ?(present_same_shape a b H), ?(proj1 H);
  repeat match goal with
  | |- context [printf ?t a ?ks] =>
      rewrite (printf_same_shape t a b ks H) by keys_incl
  end;
  reflexivity.

Lemma config_bodies_same_shape (a b : gmap string value) :
  same_shape a b →
  Forall (λ body : gmap string value → emit unit, body a = body b)
    [config_temperatures; config_humidity; config_temperatures_target;
     config_temperatures_detail; config_thermostat_modes;
     config_thermostat_modes_detail; config_battery; config_batterylow;
     config_voltage; config_smarthome_power; config_smarthome_powerAvg;
     config_energy; config_smarthome_powerswitch].
Proof.
  intros H. repeat constructor.
  - unfold config_temperatures. shape_steps a b H.
  - unfold config_humidity. shape_steps a b H.
  - unfold config_temperatures_target. shape_steps a b H.
  - unfold config_temperatures_detail. shape_steps a b H.
  - unfold config_thermostat_modes. shape_steps a b H.
  - unfold config_thermostat_modes_detail. shape_steps a b H.
  - unfold config_battery. shape_steps a b H.
  - unfold config_batterylow. shape_steps a b H.
  - unfold config_voltage. shape_steps a b H.
  - unfold config_smarthome_power. shape_steps a b H.
  - unfold config_smarthome_powerAvg. shape_steps a b H.
  - unfold config_energy. shape_steps a b H.
  - unfold config_smarthome_powerswitch. shape_steps a b H.
Qed.

Lemma for_dev_same_shape (body : gmap string value → emit unit)
    (l l' : list (gmap string value)) :
  body ∈ [config_temperatures; config_humidity; config_temperatures_target;
          config_temperatures_detail; config_thermostat_modes;
          config_thermostat_modes_detail; config_battery; config_batterylow;
          config_voltage; config_smarthome_power; config_smarthome_powerAvg;
          config_energy; config_smarthome_powerswitch] →
  Forall2 same_shape l l' → for_dev body l = for_dev body l'.
Proof.
  intros Hb. induction 1 as [|a b l l' Hab _ IH]; [done|].
  cbn [for_dev]. rewrite IH. f_equal.
  pose proof (config_bodies_same_shape a b Hab) as H.
  rewrite Forall_forall in H. by apply H.
Qed.

Lemma id_list_same_shape (name k : string) (l l' : list (gmap string value)) :
  Forall2 same_shape l l' → id_list name k l = id_list name k l'.
Proof.
  induction 1 as [|a b l l' Hab _ IH]; [done|]. simpl.
  rewrite (present_same_shape a b Hab), (proj1 Hab), IH.
  rewrite (dev_get_same_shape a b "id" Hab); [done|key_in].
Qed.

(** X15. The metadata does not depend on the readings: two sequences of
    records that have, position by position, the same keys and the same
    five identity fields get the same [print_config] output. *)
Theorem print_config_ignores_readings (host_name : option string)
    (devs devs' : list (gmap string value)) :
  Forall2 same_shape devs devs' →
  print_config host_name devs = print_config host_name devs'.
Proof.
  intros H. unfold print_config.
  rewrite !(id_list_same_shape _ _ _ _ H).
  repeat match goal with
  | |- context [for_dev ?body devs] =>
      rewrite (for_dev_same_shape body devs devs') by (elem_solve || exact H)
  end.
  reflexivity.
Qed.






(** ** The entry point *)

Lemma is_mode_exclusive (argv : list string) (mode mode' : string) :
  is_mode argv mode = true → mode ≠ mode' → is_mode argv mode' = false.
Proof.
  unfold is_mode. intros [_ H]%andb_true_iff Hne. apply bool_decide_eq_true in H.
  apply andb_false_iff. right. apply bool_decide_eq_false. congruence.
Qed.

Lemma main_fetch (argv : list string) (environ : gmap string string) (answer : result value) :
  length argv = 1%nat ∨ is_mode argv "fetch" = true →
  main argv environ answer = Some (fetch_mode answer).
Proof.
  intros [H|H]; unfold main.
  - unfold is_mode. rewrite H. reflexivity.
  - rewrite !(is_mode_exclusive argv "fetch" _ H) by done.
    by rewrite H, orb_true_r.
Qed.

(** X18. The fetch mode, with the argument [fetch] or with no argument,
    lets no exception escape: the run ends normally or by [sys.exit] with
    the one message.  When the answer cannot be turned into sorted records
    nothing is printed; when the metric emitter raises, the lines it
    printed before stay printed. *)
Theorem fetch_catches_everything (argv : list string) (environ : gmap string string)
    (answer : result value) :
  length argv = 1%nat ∨ is_mode argv "fetch" = true →
  ∃ out o, main argv environ answer = Some (out, o)
    ∧ (o = Completed ∨ o = Exit "Couldn't retrieve fritzbox smarthome data")
    ∧ (∀ e, answer ≫= getDevices = Raise e →
         out = [] ∧ o = Exit "Couldn't retrieve fritzbox smarthome data")
    ∧ (∀ devices, answer ≫= getDevices = Ok devices →
         ∃ r, print_smart_home_measurements devices = (out, r)
              ∧ (o = Completed ↔ r = Ok tt)).
Proof.
  intros H. rewrite (main_fetch _ _ _ H). unfold fetch_mode.
  destruct (answer ≫= getDevices) as [devices|e]; rewrite ?eval_Ok_bind.
  - destruct (print_smart_home_measurements devices) as [out [[]|e]] eqn:E.
    + exists out, Completed.
      split; [done|]. split; [by left|]. split; [done|].
      intros devices' [= <-]. exists (Ok tt). split; [done|by split].
    + exists out, (Exit "Couldn't retrieve fritzbox smarthome data").
      split; [done|]. split; [by right|]. split; [done|].
      intros devices' [= <-]. exists (Raise e). split; [done|by split].
  - exists [], (Exit "Couldn't retrieve fritzbox smarthome data").
    split; [done|]. split; [by right|]. split; [done|]. done.
Qed.

(** X19. The config mode prints the metadata and, when
    [MUNIN_CAP_DIRTYCONFIG] is ["1"], an empty line and then exactly what
    the metric emitter prints for the same records; without it, the metadata
    only.  Nothing is caught here: an exception of the metric emitter, or of
    the normalizer, ends the run. *)
Theorem config_then_measurements (argv : list string) (environ : gmap string string)
    (answer : result value) :
  is_mode argv "config" = true →
  (∀ devices oc om r,
     answer ≫= getDevices = Ok devices →
     print_config (environ !! "host_name") devices = (oc, Ok tt) →
     print_smart_home_measurements devices = (om, r) →
     main argv environ answer
     = Some (if dirtyconfig environ
             then (oc ++ text "" :: om,
                   match r with Ok _ => Completed | Raise e => Uncaught e end)
             else (oc, Completed)))
  ∧ (∀ e, answer ≫= getDevices = Raise e →
       main argv environ answer = Some ([], Uncaught e)).
Proof.
  intros H. unfold main. rewrite H. unfold config_mode. split.
  - intros devices oc om r -> Hc Hm. rewrite eval_Ok_bind, Hc.
    destruct (dirtyconfig environ).
    + unfold print. cbn -[print_smart_home_measurements text]. rewrite Hm.
      by destruct r.
    + cbn. by rewrite app_nil_r.
  - by intros e ->.
Qed.

End Normalizer.

(** * The statements at sample documents *)

(** Equations between closed terms, checked by evaluation. *)
Ltac by_vm :=
  lazymatch goal with
  | |- ?a = ?b => vm_cast_no_check (@eq_refl _ b)
  end.

Lemma legacy_state_wins_witness :
  simplify_device no_float
    (sample_device 17 "Bath" "CONNECTED" [VDict skill_both_shapes])
  = Ok (VInt 17, record_both_shapes)
  ∧ dict_get "summerActive" skill_both_shapes = Some (VInt 1)
  ∧ record_both_shapes !! "summerActive" = Some (VInt 1).
Proof.
  assert (simplify_device no_float
            (sample_device 17 "Bath" "CONNECTED" [VDict skill_both_shapes])
          = Ok (VInt 17, record_both_shapes)) as H.
  { by_vm. }
  split; [exact H|]. split; [reflexivity|].
  apply (proj1 (legacy_state_wins no_float _ _ _ [] [] skill_both_shapes
                  H eq_refl eq_refl (Forall_nil_2 _)) (VInt 1) eq_refl).
Defined.

Lemma unmetered_device_record_witness :
  Forall (λ skill, metered skill = false)
    (skills_of (sample_device 3 "Lamp" "CONNECTED" [VDict skill_socket; VDict skill_unknown]))
  ∧ simplify_device no_float
      (sample_device 3 "Lamp" "CONNECTED" [VDict skill_socket; VDict skill_unknown])
    = Ok (VInt 3,
          base_fields (VInt 3) (VStr "Lamp") (VStr "CONNECTED")
            (VStr "FRITZ!DECT 301") (VStr "09995 0000001")).
Proof.
  assert (Forall (λ skill, metered skill = false)
            (skills_of (sample_device 3 "Lamp" "CONNECTED"
                          [VDict skill_socket; VDict skill_unknown]))) as H.
  { repeat constructor. }
  split; [exact H|].
  apply (proj2 (proj2 (unmetered_device_record no_float _ H))).
  reflexivity.
Defined.



Lemma last_device_of_an_id_wins_witness :
  getSimplifiedDevices no_float (sample_data [device_first; device_second])
  = Ok [(VInt 23, KNum 23 0, record_meter_500)]
  ∧ simplify_device no_float device_second = Ok (VInt 23, record_meter_500)
  ∧ (entries (KNum 23 0) [(VInt 23, KNum 23 0, record_meter_500)]).*2
    = [record_meter_500].
Proof.
  assert (getSimplifiedDevices no_float (sample_data [device_first; device_second])
          = Ok [(VInt 23, KNum 23 0, record_meter_500)]) as Hm.
  { by_vm. }
  assert (simplify_device no_float device_second = Ok (VInt 23, record_meter_500)) as Hd.
  { by_vm. }
  split; [exact Hm|]. split; [exact Hd|].
  apply (last_device_of_an_id_wins no_float
           (sample_data [device_first; device_second]) _
           [device_first] [] device_second (VInt 23) _ (KNum 23 0)
           Hm eq_refl Hd eq_refl).
  - discriminate.
  - constructor.
Defined.

Lemma absent_device_lines_witness :
  record_disconnected !! "present" = Some (VBool false)
  ∧ value_temperatures record_disconnected = mret tt
  ∧ ∀ before after,
      print_smart_home_measurements no_int (before ++ record_disconnected :: after)
      = print_smart_home_measurements no_int (before ++ after).
Proof.
  assert (record_disconnected !! "present" = Some (VBool false)) as Hp.
  { by_vm. }
  destruct (absent_device_lines no_int record_disconnected (VBool false) Hp eq_refl)
    as (Hall & _ & Hdrop).
  split; [exact Hp|]. split.
  - apply Forall_cons in Hall as [H _]. exact H.
  - apply Hdrop. by_vm.
Defined.


(** The precision loss of the conversion: 1001 is printed as 3603599, one
    joule short of 1001 * 3600, because 1.001 is not a binary fraction. *)
Example powerPerHour_1001 :
  trunc (SFmul prec emax (SFdiv prec emax (float_of_Z 1001) (float_of_Z 1000))
           (float_of_Z 3600000))
  = Ok 3603599.
Proof. by_vm. Qed.

Lemma emitters_agree_when_reporting_witness :
  Forall record [record_window_open; record_meter_500]
  ∧ Forall reporting [record_window_open; record_meter_500]
  ∧ (print_config (Some "fritz.box") [record_window_open; record_meter_500]).2 = Ok tt
  ∧ (print_smart_home_measurements no_int [record_window_open; record_meter_500]).2 = Ok tt
  ∧ groups (print_config (Some "fritz.box") [record_window_open; record_meter_500]).1
    = groups (print_smart_home_measurements no_int [record_window_open; record_meter_500]).1.
Proof.
  assert (Forall record [record_window_open; record_meter_500]) as Hrec.
  { repeat constructor; vm_compute; eexists; reflexivity. }
  assert (Forall reporting [record_window_open; record_meter_500]) as Hrep.
  { repeat constructor;
      first [ exists (VBool true); split; by_vm | vm_compute; discriminate ]. }
  assert ((print_config (Some "fritz.box") [record_window_open; record_meter_500]).2
          = Ok tt) as Hc.
  { by_vm. }
  assert ((print_smart_home_measurements no_int [record_window_open; record_meter_500]).2
          = Ok tt) as Hm.
  { by_vm. }
  split; [exact Hrec|]. split; [exact Hrep|]. split; [exact Hc|]. split; [exact Hm|].
  apply (emitters_agree_when_reporting no_int (Some "fritz.box")
           [record_window_open; record_meter_500] _ _ Hrec Hrep).
  - destruct (print_config (Some "fritz.box") [record_window_open; record_meter_500])
      as [oc r].
    simpl in Hc. by rewrite Hc.
  - destruct (print_smart_home_measurements no_int [record_window_open; record_meter_500])
      as [om r].
    simpl in Hm. by rewrite Hm.
Defined.


(** ** Where the code departs from a statement *)

(** C3.  A sensor that is not connected: the metadata emitter declares its
    temperature and opens its per-device block, the metric emitter prints
    neither. *)
Lemma emitters_disagree_on_disconnected :
  getDevices no_float
    (sample_data [sample_device 9 "Attic" "DISCONNECTED" [VDict skill_sensor_19]])
  = Ok [record_disconnected]
  ∧ (print_config None [record_disconnected]).2 = Ok tt
  ∧ (print_smart_home_measurements no_int [record_disconnected]).2 = Ok tt
  ∧ groups (print_config None [record_disconnected]).1
    ≠ groups (print_smart_home_measurements no_int [record_disconnected]).1
  ∧ declares (print_config None [record_disconnected]).1
      [Lit "multigraph temperatures"] (VInt 9)
  ∧ ¬ declares (print_smart_home_measurements no_int [record_disconnected]).1
        [Lit "multigraph temperatures"] (VInt 9).
Proof.
  split; [by_vm|].
  split; [by_vm|].
  split; [by_vm|]. split; [|split].
  - vm_compute. discriminate.
  - exists "t". vm_compute. apply list_elem_of_here.
  - intros [metric H]. vm_compute in H. by apply elem_of_nil in H.
Qed.

(** C4.  The same record: its current temperature is stored, yet the metric
    emitter prints for it what it prints for no device at all, and no line
    of that output is a metric line. *)
Lemma disconnected_sensor_has_no_temperature_line :
  record_disconnected !! "present" = Some (VBool false)
  ∧ record_disconnected !! "currentTemperatureInDegC" = Some (VInt 19)
  ∧ print_smart_home_measurements no_int [record_disconnected]
    = print_smart_home_measurements no_int []
  ∧ Forall (λ l, field_of_line l = None)
      (print_smart_home_measurements no_int [record_disconnected]).1.
Proof.
  split; [by_vm|]. split; [by_vm|].
  split; [by_vm|]. vm_compute. repeat constructor.
Qed.



(** ** The further properties at sample documents *)

Lemma record_identity_witness :
  simplify_device no_float
    (sample_device 17 "Bath" "CONNECTED" [VDict skill_both_shapes])
  = Ok (VInt 17, record_both_shapes)
  ∧ record_both_shapes !! "displayName" = Some (VStr "Bath")
  ∧ record_both_shapes !! "present" = Some (VBool true).
Proof.
  assert (simplify_device no_float
            (sample_device 17 "Bath" "CONNECTED" [VDict skill_both_shapes])
          = Ok (VInt 17, record_both_shapes)) as H.
  { by_vm. }
  destruct (record_identity no_float _ _ _ H) as (_ & _ & Hn & Hp & _).
  split; [exact H|]. split; [exact Hn|exact Hp].
Defined.

Lemma record_keys_witness :
  getSimplifiedDevices no_float (sample_data [device_first; device_second])
  = Ok [(VInt 23, KNum 23 0, record_meter_500)]
  ∧ ∀ k, is_Some (record_meter_500 !! k) → k ∈ always_present ++ skill_fields.
Proof.
  assert (getSimplifiedDevices no_float (sample_data [device_first; device_second])
          = Ok [(VInt 23, KNum 23 0, record_meter_500)]) as Hm.
  { by_vm. }
  split; [exact Hm|].
  pose proof (record_keys no_float _ _ Hm) as HF.
  apply Forall_cons in HF as [H _]. exact H.
Defined.

Lemma distinct_ids_keep_order_witness :
  getSimplifiedDevices no_float
    (sample_data [sample_device 17 "Bath" "CONNECTED" [VDict skill_window_open];
                  device_second])
  = Ok [(VInt 17, KNum 17 0, record_window_open); (VInt 23, KNum 23 0, record_meter_500)]
  ∧ NoDup (id_key <$> [sample_device 17 "Bath" "CONNECTED" [VDict skill_window_open];
                       device_second])
  ∧ Forall2 (λ device item,
               simplify_device no_float device = Ok (item.1.1, item.2)
               ∧ key_of item.1.1 = Some item.1.2)
      [sample_device 17 "Bath" "CONNECTED" [VDict skill_window_open]; device_second]
      [(VInt 17, KNum 17 0, record_window_open); (VInt 23, KNum 23 0, record_meter_500)].
Proof.
  assert (getSimplifiedDevices no_float
            (sample_data [sample_device 17 "Bath" "CONNECTED" [VDict skill_window_open];
                          device_second])
          = Ok [(VInt 17, KNum 17 0, record_window_open);
                (VInt 23, KNum 23 0, record_meter_500)]) as Hm.
  { by_vm. }
  assert (NoDup (id_key <$> [sample_device 17 "Bath" "CONNECTED" [VDict skill_window_open];
                            device_second])) as Hnd.
  { apply (bool_decide_unpack _). vm_compute. exact I. }
  split; [exact Hm|]. split; [exact Hnd|].
  exact (distinct_ids_keep_order no_float _ _ Hm Hnd).
Defined.

Lemma malformed_device_aborts_witness :
  getitem (VDict []) "type" = Raise KeyError
  ∧ ∃ e, getSimplifiedDevices no_float
           (sample_data [sample_device 4 "Hub" "CONNECTED" [VDict []]]) = Raise e.
Proof.
  split; [reflexivity|].
  apply (malformed_device_aborts no_float
           (sample_data [sample_device 4 "Hub" "CONNECTED" [VDict []]])
           (sample_device 4 "Hub" "CONNECTED" [VDict []])).
  - apply list_elem_of_here.
  - right. left. exists (VDict []), KeyError. split; [apply list_elem_of_here|reflexivity].
Defined.

Lemma unreadable_skill_aborts_witness :
  py_float no_float VNone = Raise TypeError
  ∧ ∃ e, getSimplifiedDevices no_float
           (sample_data [sample_device 23 "Plug" "CONNECTED" [VDict skill_meter_null]])
         = Raise e.
Proof.
  split; [reflexivity|].
  apply (unreadable_skill_aborts no_float
           (sample_data [sample_device 23 "Plug" "CONNECTED" [VDict skill_meter_null]])
           (sample_device 23 "Plug" "CONNECTED" [VDict skill_meter_null])
           skill_meter_null).
  - apply list_elem_of_here.
  - apply list_elem_of_here.
  - left. split; [reflexivity|]. exists VNone, TypeError. split; reflexivity.
Defined.

Lemma current_state_flags_witness :
  simplify_device no_float
    (sample_device 17 "Bath" "CONNECTED" [VDict skill_window_open])
  = Ok (VInt 17, record_window_open)
  ∧ record_window_open !! "summerActive" = Some (VInt 0)
  ∧ record_window_open !! "holidyActive" = Some (VInt 0)
  ∧ record_window_open !! "windowOpen" = Some (VInt 1).
Proof.
  assert (simplify_device no_float
            (sample_device 17 "Bath" "CONNECTED" [VDict skill_window_open])
          = Ok (VInt 17, record_window_open)) as H.
  { by_vm. }
  destruct (current_state_flags no_float _ _ _ [] [] skill_window_open
              [("current", VStr "WINDOW_OPEN")] (VStr "WINDOW_OPEN")
              H eq_refl eq_refl (Forall_nil_2 _) eq_refl eq_refl eq_refl eq_refl)
    as (H1 & H2 & H3 & _).
  split; [exact H|]. split; [exact H1|]. split; [exact H2|exact H3].
Defined.

Lemma holiday_needs_legacy_field_witness :
  simplify_device no_float
    (sample_device 17 "Bath" "CONNECTED" [VDict skill_window_open])
  = Ok (VInt 17, record_window_open)
  ∧ record_window_open !! "holidayActive" = None.
Proof.
  assert (simplify_device no_float
            (sample_device 17 "Bath" "CONNECTED" [VDict skill_window_open])
          = Ok (VInt 17, record_window_open)) as H.
  { by_vm. }
  split; [exact H|].
  apply (holiday_needs_legacy_field no_float _ _ _ H).
  constructor; [|constructor]. intros _. reflexivity.
Defined.

Lemma last_skill_decides_reading_witness :
  simplify_device no_float
    (sample_device 5 "Hall" "CONNECTED" [VDict skill_sensor_19; VDict skill_sensor_silent])
  = Ok (VInt 5, record_silent)
  ∧ record_silent !! "currentTemperatureInDegC" = Some VNone.
Proof.
  assert (simplify_device no_float
            (sample_device 5 "Hall" "CONNECTED"
               [VDict skill_sensor_19; VDict skill_sensor_silent])
          = Ok (VInt 5, record_silent)) as H.
  { by_vm. }
  split; [exact H|].
  apply (last_skill_decides_reading no_float _ _ _ [VDict skill_sensor_19] []
           skill_sensor_silent "SmartHomeTemperatureSensor" "currentInCelsius"
           "currentTemperatureInDegC" H).
  - apply list_elem_of_further, list_elem_of_here.
  - reflexivity.
  - reflexivity.
  - constructor.
Defined.

Lemma reference_temperature_witness :
  usedTempSensor (VDict skill_with_reference) ∅
  = Ok (<["refTemperatureInDegC" := VInt 19]> ∅)
  ∧ usedTempSensor (VDict [("usedTempSensor", VDict [])]) ∅ = Raise KeyError.
Proof.
  destruct (reference_temperature skill_with_reference ∅) as (H1 & _ & _).
  destruct (reference_temperature [("usedTempSensor", VDict [])] ∅) as (_ & H2 & _).
  split.
  - apply (H1 (VDict [("skills", VList [VDict skill_sensor_19; VDict skill_sensor_silent])])
              [skill_sensor_19; skill_sensor_silent]); reflexivity.
  - apply (H2 []); reflexivity.
Defined.

Lemma same_name_keeps_order_witness :
  sorted_by_displayName [record_meter_500; record_disconnected]
  = Ok [record_disconnected; record_meter_500]
  ∧ filter (λ dev, has_name "Plug" dev = true) [record_disconnected; record_meter_500]
    = filter (λ dev, has_name "Plug" dev = true) [record_meter_500; record_disconnected].
Proof.
  assert (sorted_by_displayName [record_meter_500; record_disconnected]
          = Ok [record_disconnected; record_meter_500]) as H.
  { by_vm. }
  split; [exact H|]. exact (same_name_keeps_order _ _ "Plug" H).
Defined.



Lemma unconvertible_flag_stops_measurements_witness :
  py_int no_int (VStr "yes") = Raise ValueError
  ∧ ∃ out e, print_smart_home_measurements no_int [record_window_yes] = (out, Raise e).
Proof.
  split; [reflexivity|].
  apply (unconvertible_flag_stops_measurements no_int [record_window_yes]
           record_window_yes "windowOpen" (VStr "yes") ValueError).
  - apply list_elem_of_here.
  - apply list_elem_of_here.
  - by_vm.
  - reflexivity.
Defined.


Lemma print_config_ignores_readings_witness :
  same_shape record_silent record_hall_19
  ∧ print_config None [record_silent] = print_config None [record_hall_19].
Proof.
  assert (same_shape record_silent record_hall_19) as H.
  { split.
    - intros k. unfold has, record_silent, record_hall_19.
      destruct (decide (k = "currentTemperatureInDegC")) as [->|Hk].
      + by rewrite !lookup_insert_eq.
      + by rewrite !lookup_insert_ne.
    - intros k Hk. unfold record_silent, record_hall_19.
      destruct (decide (k = "currentTemperatureInDegC")) as [->|Hne].
      + apply list_elem_of_In in Hk. simpl in Hk.
        destruct Hk as [Hk|[Hk|[Hk|[Hk|[Hk|[]]]]]]; discriminate Hk.
      + by rewrite !lookup_insert_ne. }
  split; [exact H|].
  apply (print_config_ignores_readings None [record_silent] [record_hall_19]).
  constructor; [exact H|constructor].
Defined.

Lemma fetch_catches_everything_witness :
  main no_float no_int ["fritzbox_smart_home"] ∅ (Ok (VDict []))
  = Some ([], Exit "Couldn't retrieve fritzbox smarthome data").
Proof.
  destruct (fetch_catches_everything no_float no_int ["fritzbox_smart_home"] ∅
              (Ok (VDict [])) (or_introl eq_refl))
    as (out & o & Hmain & _ & Hfail & _).
  destruct (Hfail KeyError eq_refl) as [-> ->]. exact Hmain.
Defined.

Lemma config_then_measurements_witness :
  main no_float no_int ["fritzbox_smart_home"; "config"]
    (<["MUNIN_CAP_DIRTYCONFIG" := "1"%string]> ∅)
    (Ok (sample_data [device_first; device_second]))
  = Some ((print_config None [record_meter_500]).1
          ++ text "" :: (print_smart_home_measurements no_int [record_meter_500]).1,
          Completed).
Proof.
  destruct (config_then_measurements no_float no_int
              ["fritzbox_smart_home"; "config"]
              (<["MUNIN_CAP_DIRTYCONFIG" := "1"%string]> ∅)
              (Ok (sample_data [device_first; device_second])) eq_refl) as [H _].
  apply (H [record_meter_500] (print_config None [record_meter_500]).1
           (print_smart_home_measurements no_int [record_meter_500]).1 (Ok tt)).
  - by_vm.
  - by_vm.
  - by_vm.
Defined.


